(** * jsonrpc_async: a JSON-RPC 2.0 client over HTTP

    Shallow embedding of [jsonrpc_async/jsonrpc.py]: the [Server] connection
    ([send_request], [parse_result], [serialize], [__request], [__getattr__])
    and the [Method] call proxy.

    Python values are a small inductive type; a call runs in an explicit
    state-and-exception monad over a [world] that holds the position of the
    process-wide random generator and the trace of the calls made to the
    collaborators (the JSON encoder hook and the HTTP response).  Attribute
    access follows Python: ordinary lookup first, [__getattr__] for the names
    it does not find.  The code
    targets the interpreters that still ship [asyncio.coroutine] and
    [collections.Mapping] (Python 3.4 to 3.9). *)

From Stdlib Require Import ZArith List String Ascii Bool Lia PrimFloat.
Import ListNotations.
Open Scope string_scope.
Open Scope Z_scope.

Set Warnings "-register-all".

(** ** Python values *)

(** The values that reach this module: what [response.json()] decodes, and
    what a caller passes as arguments.  A [dict] keeps its insertion order,
    which is the order [json.dumps] writes it in; its keys are strings here,
    as they are for a decoded JSON object and for keyword arguments. *)
Inductive pyval : Type :=
| PNone
| PBool (b : bool)
| PInt (z : Z)
| PFloat (f : float)
| PStr (s : string)
| PList (l : list pyval)
| PTuple (l : list pyval)
| PDict (d : list (string * pyval)).

Definition pydict : Type := list (string * pyval).

(** [bool(v)]: the truth value Python gives [v] in [if v], [v and w], [v or w]. *)
Definition truthy (v : pyval) : bool :=
  match v with
  | PNone => false
  | PBool b => b
  | PInt z => negb (z =? 0)
  | PFloat f => negb (PrimFloat.eqb f PrimFloat.zero)
  | PStr s => negb (String.eqb s EmptyString)
  | PList l => negb (Nat.eqb (List.length l) 0)
  | PTuple l => negb (Nat.eqb (List.length l) 0)
  | PDict d => negb (Nat.eqb (List.length d) 0)
  end.

(** [isinstance(v, dict)]; on these values also [isinstance(v, collections.Mapping)]. *)
Definition is_dict (v : pyval) : bool :=
  match v with PDict _ => true | _ => false end.

(** [type(v).__name__], as it appears in the interpreter's messages. *)
Definition type_name (v : pyval) : string :=
  match v with
  | PNone => "NoneType"
  | PBool _ => "bool"
  | PInt _ => "int"
  | PFloat _ => "float"
  | PStr _ => "str"
  | PList _ => "list"
  | PTuple _ => "tuple"
  | PDict _ => "dict"
  end.

(** ** Dictionaries *)

Module Dict.

(** [d.get(k)] without a default: the first entry under [k]. *)
Fixpoint lookup (k : string) (d : pydict) : option pyval :=
  match d with
  | [] => None
  | (k', v) :: d' => if String.eqb k k' then Some v else lookup k d'
  end.

(** [k in d] *)
Definition mem (k : string) (d : pydict) : bool :=
  match lookup k d with Some _ => true | None => false end.

(** [d.get(k, default)] *)
Definition get (k : string) (default : pyval) (d : pydict) : pyval :=
  match lookup k d with Some v => v | None => default end.

(** [del d[k]] when present: no entry under [k] is left. *)
Fixpoint remove (k : string) (d : pydict) : pydict :=
  match d with
  | [] => []
  | (k', v) :: d' =>
      if String.eqb k k' then remove k d' else (k', v) :: remove k d'
  end.

(** [d.pop(k, default)]: the value and the dictionary left behind. *)
Definition pop (k : string) (default : pyval) (d : pydict) : pyval * pydict :=
  (get k default d, remove k d).

(** [d[k] = v]: overwrite in place, or append as the newest entry. *)
Fixpoint set (k : string) (v : pyval) (d : pydict) : pydict :=
  match d with
  | [] => [(k, v)]
  | (k', v') :: d' =>
      if String.eqb k k' then (k, v) :: d' else (k', v') :: set k v d'
  end.

End Dict.

(** ** Exceptions *)

(** Exceptions raised by the collaborators, by the class an [except] clause
    of this module tells them apart with. *)
Inductive foreign_class : Type :=
| ClientResponseError
| ClientOSError
| ValueError
| OtherException.

Record foreign_exn : Type := MkForeign {
  exc_class : foreign_class;
  exc_text : string
}.

(** [except (aiohttp.ClientResponseError, aiohttp.ClientOSError)] *)
Definition caught_at_post (e : foreign_exn) : bool :=
  match exc_class e with
  | ClientResponseError | ClientOSError => true
  | _ => false
  end.

(** [except ValueError] *)
Definition caught_at_json (e : foreign_exn) : bool :=
  match exc_class e with
  | ValueError => true
  | _ => false
  end.

(** One positional argument of an exception: a value, a [%]-formatted
    message kept as its template and operands, or a caught exception. *)
Inductive exc_arg : Type :=
| ArgVal (v : pyval)
| ArgFormat (template : string) (operands : list pyval)
| ArgCause (e : foreign_exn).

Inductive exn : Type :=
| TransportError (args : list exc_arg)
| ProtocolError (args : list exc_arg)
| AttributeError (msg : string)
| TypeError (msg : string)
| Foreign (e : foreign_exn).

Definition is_ProtocolError (e : exn) : bool :=
  match e with ProtocolError _ => true | _ => false end.

(** [isinstance(e, JSONRPCError)]: the root class and its two subclasses. *)
Definition is_JSONRPCError (e : exn) : bool :=
  match e with
  | TransportError _ | ProtocolError _ => true
  | _ => false
  end.

(** The result of running Python code: a value or a raised exception. *)
Inductive result (A : Type) : Type :=
| Ok (a : A)
| Raise (e : exn).
Arguments Ok {A} a.
Arguments Raise {A} e.

(** ** The world a call runs in *)

(** What the HTTP transport hands back for one POST. *)
Record response : Type := MkResponse {
  status : Z;
  reason : string;
  json : foreign_exn + pyval;          (* [response.json()]: raises or decodes *)
  release_raises : option foreign_exn  (* [response.release()]: raises or returns *)
}.

Inductive post_outcome : Type :=
| PostRaises (e : foreign_exn)
| PostReturns (r : response).

(** The calls this module makes to its collaborators, oldest first. *)
Inductive event : Type :=
| EvDumps (data : pyval)     (* [self.dumps(data)] *)
| EvPost (body : string)     (* [self.request(data=body)] *)
| EvJson                     (* [response.json()] *)
| EvRelease.                 (* [response.release()] *)

Record world : Type := MkWorld {
  rng_pos : nat;          (* draws taken so far from the [random] module *)
  held : nat;             (* responses obtained and not yet released *)
  trace : list event
}.

Definition log (e : event) (w : world) : world :=
  MkWorld (rng_pos w) (held w) (trace w ++ [e]).

(** Computations: state passing over the [world], with exceptions. *)
Definition M (A : Type) : Type := world -> result A * world.

Definition ret {A} (a : A) : M A := fun w => (Ok a, w).

Definition raise {A} (e : exn) : M A := fun w => (Raise e, w).

Definition bind {A B} (m : M A) (k : A -> M B) : M B :=
  fun w =>
    match m w with
    | (Ok a, w') => k a w'
    | (Raise e, w') => (Raise e, w')
    end.

Definition lift {A} (r : result A) : M A := fun w => (r, w).

(** [try: body / except: handler] *)
Definition try_except {A} (body : M A) (handler : exn -> M A) : M A :=
  fun w =>
    match body w with
    | (Ok a, w') => (Ok a, w')
    | (Raise e, w') => handler e w'
    end.

(** [try: body / finally: cleanup]: the cleanup always runs; what it raises
    replaces the outcome of the body. *)
Definition try_finally {A} (body : M A) (cleanup : M unit) : M A :=
  fun w =>
    match body w with
    | (r, w') =>
        match cleanup w' with
        | (Ok _, w'') => (r, w'')
        | (Raise e, w'') => (Raise e, w'')
        end
    end.

Declare Scope py_scope.
Delimit Scope py_scope with py.
Notation "x <- m ;; k" := (bind m (fun x => k))
  (at level 100, m at next level, right associativity) : py_scope.
Open Scope py_scope.

(** [sys.maxsize] of a 64-bit interpreter. *)
Definition sys_maxsize : Z := 2 ^ 63 - 1.

(** ** [Method], the call proxy *)

Module Method.

Record t : Type := Make {
  _Method__request_method : string -> list pyval -> pydict -> M pyval;
  _Method__method_name : string
}.

(** [name.startswith("_")] *)
Definition is_private (name : string) : bool :=
  match name with
  | String c _ => Ascii.eqb c "_"
  | EmptyString => false
  end.

Definition invalid_attribute (name : string) : exn :=
  AttributeError ("invalid attribute '" ++ name ++ "'").

(** [Method.__init__] *)
Definition init
  (request_method : string -> list pyval -> pydict -> M pyval)
  (method_name : string) : result t :=
  if is_private method_name then Raise (invalid_attribute method_name)
  else Ok (Make request_method method_name).

(** [Method.__getattr__], which Python calls for the names that ordinary
    lookup does not find on the proxy. *)
Definition getattr (self : t) (method_name : string) : result t :=
  if is_private method_name then Raise (invalid_attribute method_name)
  else
    init (_Method__request_method self)
      (_Method__method_name self ++ "." ++ method_name).

(** The attributes a proxy has of its own: the two instance attributes, under
    their mangled names, and the three methods of the class. *)
Definition own_names : list string :=
  ["_Method__request_method"; "_Method__method_name";
   "__init__"; "__getattr__"; "__call__"].

(** What binding the arguments of [__call__(self, *args, **kwargs)] raises
    for a keyword named [self]. *)
Definition self_given_twice : exn :=
  TypeError "__call__() got multiple values for argument 'self'".

(** [Method.__call__]: [self] is the only named parameter, every other
    keyword goes to [kwargs]. *)
Definition call (self : t) (args : list pyval) (kwargs : pydict) : M pyval :=
  if Dict.mem "self" kwargs then raise self_given_twice
  else _Method__request_method self (_Method__method_name self) args kwargs.

End Method.

(** ** [Server], the connection *)

Module Server.

(** [obj.get(k, default)] on an arbitrary value: only a [dict] has the method. *)
Definition py_get (obj : pyval) (k : string) (default : pyval) : result pyval :=
  match obj with
  | PDict d => Ok (Dict.get k default d)
  | _ => Raise (AttributeError
                  ("'" ++ type_name obj ++ "' object has no attribute 'get'"))
  end.

(** [Server.parse_result] *)
Definition parse_result (res : pyval) : result pyval :=
  match res with
  | PDict d =>
      let error := Dict.get "error" PNone d in
      if truthy error then
        match py_get error "code" (PStr EmptyString) with
        | Raise e => Raise e
        | Ok code =>
            match py_get error "message" (PStr EmptyString) with
            | Raise e => Raise e
            | Ok message =>
                Raise (ProtocolError [ArgVal code; ArgVal message; ArgVal res])
            end
        end
      else
        match Dict.lookup "result" d with
        | None =>
            Raise (ProtocolError
                     [ArgVal (PStr "Response without a result field")])
        | Some v => Ok v
        end
  | _ => Raise (ProtocolError [ArgVal (PStr "Response is not a dictionary")])
  end.

(** The attributes a connection has of its own: the two that [__init__]
    sets and the methods of the class ([__request] under its mangled name). *)
Definition own_names : list string :=
  ["session"; "request"; "send_request"; "parse_result"; "dumps"; "serialize";
   "__init__"; "__getattr__"; "_Server__request"].

(** The session a connection posts through. *)
Inductive session_ref : Type :=
| Supplied (name : string)   (* the session object the caller passed *)
| Created.                   (* a new [aiohttp.ClientSession()] *)

(** What [__init__] leaves on the connection: [self.session], and the
    arguments frozen in [self.request], the partial application of
    [self.session.post] to [url] and the keyword arguments. *)
Record t : Type := Make {
  session : session_ref;
  url : string;
  post_kwargs : pydict
}.

(** [post_kwargs['headers'][k] = post_kwargs['headers'].get(k, default)]:
    the right-hand side is evaluated first, and only a [dict] has [.get]. *)
Definition default_header (k : string) (default : pyval) (post_kwargs : pydict)
  : result pydict :=
  let headers := Dict.get "headers" PNone post_kwargs in
  match py_get headers k default with
  | Raise e => Raise e
  | Ok v =>
      match headers with
      | PDict h => Ok (Dict.set "headers" (PDict (Dict.set k v h)) post_kwargs)
      | _ => Ok post_kwargs   (* not reached: [py_get] raised *)
      end
  end.

(** The three statements of [__init__] on [post_kwargs]. *)
Definition init_kwargs (post_kwargs : pydict) : result pydict :=
  let post_kwargs :=
    Dict.set "headers" (Dict.get "headers" (PDict []) post_kwargs) post_kwargs in
  match default_header "Content-Type" (PStr "application/json") post_kwargs with
  | Raise e => Raise e
  | Ok post_kwargs =>
      default_header "Accept" (PStr "application/json-rpc") post_kwargs
  end.

(** [Server.__init__]; [session] is [None] when the caller passes none. *)
Definition init (url : string) (session : option string) (post_kwargs : pydict)
  : result t :=
  let session :=
    match session with
    | Some s => Supplied s
    | None => Created
    end in
  match init_kwargs post_kwargs with
  | Raise e => Raise e
  | Ok post_kwargs => Ok (Make session url post_kwargs)
  end.

(** The keyword arguments [session.post] receives from
    [self.request(data=body)]: those frozen in the partial application,
    updated with the ones of the call. *)
Definition post_arguments (self : t) (body : string) : pydict :=
  Dict.set "data" (PStr body) (post_kwargs self).

Section Connection.

(** The encoder hook [Server.dumps] ([json.dumps] unless overridden): the
    text, or the exception it raises for what it cannot encode. *)
Variable dumps : pyval -> foreign_exn + string.
(** The bits the [random] module produces, draw by draw. *)
Variable entropy : nat -> Z.
(** The HTTP session: its answer to a POST, given what happened before. *)
Variable transport : list event -> string -> post_outcome.

(** [random.randint(a, b)]: an integer of [a..b], one draw consumed. *)
Definition randint (a b : Z) : M Z :=
  fun w =>
    (Ok (a + entropy (rng_pos w) mod (b - a + 1)),
     MkWorld (S (rng_pos w)) (held w) (trace w)).

Definition call_dumps (data : pyval) : M string :=
  fun w =>
    match dumps data with
    | inl e => (Raise (Foreign e), log (EvDumps data) w)
    | inr body => (Ok body, log (EvDumps data) w)
    end.

(** [self.request(data=body)], that is [session.post(url, data=body, ...)]. *)
Definition post (body : string) : M response :=
  fun w =>
    let w' := log (EvPost body) w in
    match transport (trace w) body with
    | PostRaises e => (Raise (Foreign e), w')
    | PostReturns r => (Ok r, MkWorld (rng_pos w') (S (held w')) (trace w'))
    end.

Definition read_json (r : response) : M pyval :=
  fun w =>
    match json r with
    | inl e => (Raise (Foreign e), log EvJson w)
    | inr v => (Ok v, log EvJson w)
    end.

(** [response.release()]: the connection goes back to the pool, also when
    draining what is left of the body raises on the way. *)
Definition release (r : response) : M unit :=
  fun w =>
    let w' := MkWorld (rng_pos w) (Nat.pred (held w)) (trace w ++ [EvRelease]) in
    match release_raises r with
    | Some e => (Raise (Foreign e), w')
    | None => (Ok tt, w')
    end.

(** The dictionary [data] that [serialize] builds and hands to [dumps]. *)
Definition envelope (method_name : string) (params is_notification : pyval)
  : M pydict :=
  let data := [("jsonrpc", PStr "2.0"); ("method", PStr method_name)] in
  let data := if truthy params then Dict.set "params" params data else data in
  if negb (truthy is_notification) then
    id <- randint 1 sys_maxsize ;;
    ret (Dict.set "id" (PInt id) data)
  else ret data.

(** [Server.serialize] *)
Definition serialize (method_name : string) (params is_notification : pyval)
  : M string :=
  data <- envelope method_name params is_notification ;;
  call_dumps (PDict data).

(** [Server.send_request], run to completion. *)
Definition send_request (method_name : string) (is_notification params : pyval)
  : M pyval :=
  request_body <- serialize method_name params is_notification ;;
  response <-
    try_except (post request_body)
      (fun exc =>
         match exc with
         | Foreign (MkForeign ClientResponseError _ as e)
         | Foreign (MkForeign ClientOSError _ as e) =>
             raise (TransportError
                      [ArgFormat "Error calling method %r" [PStr method_name];
                       ArgCause e])
         | _ => raise exc
         end) ;;
  try_finally
    (if negb (status response =? 200) then
       raise (TransportError
                [ArgFormat "HTTP %d %s"
                   [PInt (status response); PStr (reason response)]])
     else if negb (truthy is_notification) then
       parsed <-
         try_except (read_json response)
           (fun exc =>
              match exc with
              | Foreign (MkForeign ValueError _ as value_error) =>
                  raise (TransportError
                           [ArgVal (PStr "Cannot deserialize response body");
                            ArgCause value_error])
              | _ => raise exc
              end) ;;
       lift (parse_result parsed)
     else ret PNone)
    (release response).

Definition mixed_arguments : exn :=
  ProtocolError
    [ArgVal (PStr "JSON-RPC spec forbids mixing arguments and keyword arguments")].

(** [args] after the unwrapping step: the sole positional argument itself
    when it is a mapping ([dict(args[0])]), the tuple otherwise. *)
Definition unwrap (args : list pyval) : pyval :=
  match args with
  | [PDict m] => PDict m
  | _ => PTuple args
  end.

(** [Server.__request] *)
Definition request (method_name : string) (args : list pyval) (kwargs : pydict)
  : M pyval :=
  let (is_notification, kwargs) := Dict.pop "_notification" (PBool false) kwargs in
  if truthy (PTuple args) && truthy (PDict kwargs) then
    raise mixed_arguments
  else
    let args := unwrap args in
    send_request method_name is_notification
      (if truthy args then args else PDict kwargs).

(** [Server.__getattr__], which Python calls for the names that ordinary
    lookup does not find on the connection. *)
Definition getattr (method_name : string) : result Method.t :=
  Method.init request method_name.

End Connection.

End Server.

(** ** Call expressions and sessions *)

Module Caller.

(** One call expression of the caller: the segments accessed on the
    connection, then the arguments of the invocation. *)
Record call : Type := MkCall {
  call_first : string;
  call_rest : list string;
  call_args : list pyval;
  call_kwargs : pydict
}.

(** What an attribute access evaluates to: a proxy that [__getattr__] built,
    or an attribute that ordinary lookup found, on the connection ([None]) or
    on a proxy. *)
Inductive target : Type :=
| Proxy (m : Method.t)
| Attribute (owner : option Method.t) (name : string).

Section Lookup.

(** The names every object has from [object] and from the class machinery
    ([__class__], [__dict__], [__doc__], ...); all of them begin with an
    underscore, and only such names are asked for. *)
Variable builtin : string -> bool.

(** Ordinary lookup finds [name] on an object whose own attributes are
    [own]; Python calls [__getattr__] only when it does not. *)
Definition found (own : list string) (name : string) : bool :=
  existsb (String.eqb name) own || (Method.is_private name && builtin name).

(** [proxy.name] *)
Definition on_proxy (m : Method.t) (name : string) : result target :=
  if found Method.own_names name then Ok (Attribute (Some m) name)
  else
    match Method.getattr m name with
    | Ok m' => Ok (Proxy m')
    | Raise e => Raise e
    end.

(** The later segments, each looked up on what the previous access returned;
    [None] once a segment is looked up on an attribute that is not a proxy,
    an object this module does not define. *)
Fixpoint extend (t : target) (segments : list string)
  : result (option target) :=
  match segments with
  | [] => Ok (Some t)
  | s :: rest =>
      match t with
      | Proxy m =>
          match on_proxy m s with
          | Ok t' => extend t' rest
          | Raise e => Raise e
          end
      | Attribute _ _ => Ok None
      end
  end.

(** The chains whose every segment reaches [__getattr__]. *)
Definition hooked (segments : list string) : bool :=
  match segments with
  | [] => true
  | first :: rest =>
      negb (found Server.own_names first)
      && forallb (fun s => negb (found Method.own_names s)) rest
  end.

End Lookup.

Section Connection.

Variable builtin : string -> bool.
Variable dumps : pyval -> foreign_exn + string.
Variable entropy : nat -> Z.
Variable transport : list event -> string -> post_outcome.

(** [server.name] *)
Definition on_connection (name : string) : result target :=
  if found builtin Server.own_names name then Ok (Attribute None name)
  else
    match Server.getattr dumps entropy transport name with
    | Ok m => Ok (Proxy m)
    | Raise e => Raise e
    end.

(** [server.a.b.c] *)
Definition attribute_chain (first : string) (rest : list string)
  : result (option target) :=
  match on_connection first with
  | Ok t => extend builtin t rest
  | Raise e => Raise e
  end.

(** A whole call expression, run to completion: the chain of accesses, then
    the invocation of what it yields, a proxy or the bound [__call__] of a
    proxy.  [None] when the expression invokes anything else: its meaning
    lies outside the proxies. *)
Definition invoke (first : string) (rest : list string)
  (args : list pyval) (kwargs : pydict) (w : world)
  : option (result pyval * world) :=
  match attribute_chain first rest with
  | Raise e => Some (Raise e, w)
  | Ok (Some (Proxy m)) => Some (Method.call m args kwargs w)
  | Ok (Some (Attribute (Some m) name)) =>
      if String.eqb name "__call__" then Some (Method.call m args kwargs w)
      else None
  | Ok _ => None
  end.

(** The calls of a session, one after the other on the same connection; an
    exception ends its call, not the session. *)
Fixpoint session (calls : list call) (w : world)
  : option (list (result pyval) * world) :=
  match calls with
  | [] => Some ([], w)
  | c :: rest =>
      match invoke (call_first c) (call_rest c) (call_args c) (call_kwargs c) w
      with
      | None => None
      | Some (r, w') =>
          match session rest w' with
          | None => None
          | Some (rs, w'') => Some (r :: rs, w'')
          end
      end
  end.

End Connection.

End Caller.

(** ** Observations on a trace *)

(** The ['id'] of an envelope, when it has one. *)
Definition envelope_id (data : pyval) : option Z :=
  match data with
  | PDict d =>
      match Dict.lookup "id" d with
      | Some (PInt n) => Some n
      | _ => None
      end
  | _ => None
  end.

(** The ids of the envelopes encoded along a trace, oldest first. *)
Fixpoint ids_of (t : list event) : list Z :=
  match t with
  | [] => []
  | EvDumps data :: t' =>
      match envelope_id data with
      | Some n => n :: ids_of t'
      | None => ids_of t'
      end
  | _ :: t' => ids_of t'
  end.

(** The envelopes handed to the encoder along a trace, oldest first. *)
Fixpoint encoded (t : list event) : list pyval :=
  match t with
  | [] => []
  | EvDumps data :: t' => data :: encoded t'
  | _ :: t' => encoded t'
  end.

(** The bodies posted along a trace, oldest first. *)
Fixpoint posted (t : list event) : list string :=
  match t with
  | [] => []
  | EvPost body :: t' => body :: posted t'
  | _ :: t' => posted t'
  end.

(** The value [random.randint(1, sys.maxsize)] returns at draw [k]. *)
Definition draw (entropy : nat -> Z) (k : nat) : Z :=
  1 + entropy k mod (sys_maxsize - 1 + 1).

(** The ['params'] entry of an envelope. *)
Definition envelope_params (data : pyval) : option pyval :=
  match data with
  | PDict d => Dict.lookup "params" d
  | _ => None
  end.

(** [k in v] for a key [k] and a value [v] used as parameters. *)
Definition has_key (k : string) (v : pyval) : bool :=
  match v with
  | PDict d => Dict.mem k d
  | _ => false
  end.

(** A transport that fails only in the ways [send_request] handles: the POST
    raises nothing but [ClientResponseError] and [ClientOSError], decoding
    raises nothing but [ValueError], the release raises nothing, and a truthy
    ['error'] of a decoded mapping is itself a mapping. *)
Definition obliging (transport : list event -> string -> post_outcome) : Prop :=
  forall history body,
    match transport history body with
    | PostRaises e => caught_at_post e = true
    | PostReturns r =>
        release_raises r = None /\
        match json r with
        | inl e => caught_at_json e = true
        | inr v =>
            forall d,
              v = PDict d ->
              truthy (Dict.get "error" PNone d) = true ->
              is_dict (Dict.get "error" PNone d) = true
        end
    end.

(** ** A connection to run examples on *)

Module Sample.

(** An override of the encoder hook: the keys of the envelope, in order. *)
Definition dumps (data : pyval) : foreign_exn + string :=
  match data with
  | PDict d => inr (String.concat "," (List.map fst d))
  | _ => inr "?"
  end.

(** An encoder that refuses everything, as [json.dumps] refuses a value of a
    type it does not know. *)
Definition refusing (data : pyval) : foreign_exn + string :=
  inl (MkForeign OtherException "TypeError: not JSON serializable").

(** The names a CPython object has from [object] and its class. *)
Definition builtin (name : string) : bool :=
  existsb (String.eqb name)
    ["__class__"; "__dict__"; "__doc__"; "__module__"; "__weakref__";
     "__delattr__"; "__dir__"; "__eq__"; "__format__"; "__ge__";
     "__getattribute__"; "__gt__"; "__hash__"; "__init_subclass__"; "__le__";
     "__lt__"; "__ne__"; "__new__"; "__reduce__"; "__reduce_ex__"; "__repr__";
     "__setattr__"; "__sizeof__"; "__str__"; "__subclasshook__"].

(** A generator whose draws differ from one another. *)
Definition entropy (k : nat) : Z := 41 + Z.of_nat k.


(** A server that answers every POST with [200 OK] and the result [7]. *)
Definition transport (history : list event) (body : string) : post_outcome :=
  PostReturns (MkResponse 200 "OK" (inr (PDict [("result", PInt 7)])) None).

(** A server that answers every POST with [500]. *)
Definition failing (history : list event) (body : string) : post_outcome :=
  PostReturns (MkResponse 500 "Internal Server Error" (inr PNone) None).

Definition start : world := MkWorld 0 0 [].

End Sample.

(** * Properties *)

(** ** [parse_result] *)

Lemma parse_result_not_dict (res : pyval) :
  is_dict res = false ->
  Server.parse_result res =
    Raise (ProtocolError [ArgVal (PStr "Response is not a dictionary")]).
Proof. destruct res; simpl; intros H; try reflexivity; discriminate H. Qed.

Lemma parse_result_returns_result (d : pydict) (v : pyval) :
  truthy (Dict.get "error" PNone d) = false ->
  Dict.lookup "result" d = Some v ->
  Server.parse_result (PDict d) = Ok v.
Proof. intros He Hr. unfold Server.parse_result. simpl. rewrite He, Hr. reflexivity. Qed.

Lemma parse_result_without_result (d : pydict) :
  truthy (Dict.get "error" PNone d) = false ->
  Dict.mem "result" d = false ->
  Server.parse_result (PDict d) =
    Raise (ProtocolError [ArgVal (PStr "Response without a result field")]).
Proof.
  intros He Hr. unfold Server.parse_result, Dict.mem in *. simpl. rewrite He.
  destruct (Dict.lookup "result" d); [discriminate Hr | reflexivity].
Qed.

(** X2: an error object that is a non-empty mapping is reported as a
    [ProtocolError] that carries its code and message, each defaulting to the
    empty string, and the whole response, also when the response holds a
    ['result'] as well. *)
Lemma parse_result_error_mapping (d e : pydict) :
  Dict.get "error" PNone d = PDict e ->
  e <> [] ->
  Server.parse_result (PDict d) =
    Raise (ProtocolError
             [ArgVal (Dict.get "code" (PStr EmptyString) e);
              ArgVal (Dict.get "message" (PStr EmptyString) e);
              ArgVal (PDict d)]).
Proof.
  intros He Hne. unfold Server.parse_result. simpl. rewrite He.
  destruct e as [|x e']; [contradiction|]. reflexivity.
Qed.

(** C1 (code defect): a response whose ['error'] is the string ["boom"] is a
    mapping with a truthy error field, yet [parse_result] does not raise the
    [ProtocolError] the claim promises: the lookup of [.get] on the string
    raises [AttributeError]. *)
Theorem parse_result_string_error_escapes :
  Server.parse_result (PDict [("error", PStr "boom")]) =
    Raise (AttributeError "'str' object has no attribute 'get'").
Proof. reflexivity. Qed.

(** C2 (code defect): for every response mapping whose ['error'] is truthy
    and is not itself a mapping, [parse_result] raises an [AttributeError],
    not a [ProtocolError]: nothing guards the call of [.get] on the error
    object. *)
Theorem parse_result_malformed_error_crashes (d : pydict) :
  truthy (Dict.get "error" PNone d) = true ->
  is_dict (Dict.get "error" PNone d) = false ->
  Server.parse_result (PDict d) =
    Raise (AttributeError
             ("'" ++ type_name (Dict.get "error" PNone d)
                  ++ "' object has no attribute 'get'")).
Proof.
  intros Ht Hd. unfold Server.parse_result. simpl. rewrite Ht.
  destruct (Dict.get "error" PNone d); simpl in *;
    try reflexivity; discriminate Hd.
Qed.

Lemma parse_result_malformed_error_crashes_witness :
  Server.parse_result (PDict [("error", PList [PInt 1])]) =
    Raise (AttributeError "'list' object has no attribute 'get'").
Proof.
  apply (parse_result_malformed_error_crashes [("error", PList [PInt 1])]);
    reflexivity.
Defined.

(** ** The call proxy *)

Lemma append_assoc (a b c : string) : ((a ++ b) ++ c = a ++ (b ++ c))%string.
Proof. induction a as [|x a IH]; simpl; [reflexivity | now rewrite IH]. Qed.

(** Extending a public name with a dot and a segment keeps it public. *)
Lemma is_private_dotted (a b : string) :
  Method.is_private a = false -> Method.is_private (a ++ "." ++ b) = false.
Proof.
  destruct a as [|x a]; intros H; [reflexivity | exact H].
Qed.

Lemma concat_dotted (a s : string) (r : list string) :
  String.concat "." ((a ++ "." ++ s)%string :: r) = String.concat "." (a :: s :: r).
Proof.
  destruct r as [|x r]; simpl; [reflexivity|].
  now rewrite !append_assoc.
Qed.

Lemma existsb_eqb_In (s : string) (l : list string) :
  existsb (String.eqb s) l = true -> In s l.
Proof.
  induction l as [|x l IH]; cbn [existsb]; [discriminate|].
  destruct (String.eqb s x) eqn:E.
  - apply String.eqb_eq in E. intros _. now left.
  - intros H. right. now apply IH.
Qed.

(** The attributes a proxy has of its own all begin with an underscore. *)
Lemma own_names_private (s : string) :
  In s Method.own_names -> Method.is_private s = true.
Proof.
  intros H. repeat (destruct H as [<- | H]; [reflexivity|]). destruct H.
Qed.

Section Proxy.

Variable builtin : string -> bool.
Variable dumps : pyval -> foreign_exn + string.
Variable entropy : nat -> Z.
Variable transport : list event -> string -> post_outcome.

Local Abbreviation request := (Server.request dumps entropy transport).
Local Abbreviation attribute_chain :=
  (Caller.attribute_chain builtin dumps entropy transport).
Local Abbreviation invoke := (Caller.invoke builtin dumps entropy transport).
Local Abbreviation public := (fun s => Method.is_private s = false).

(** On a proxy, ordinary lookup finds no public name. *)
Lemma public_not_found (s : string) :
  Method.is_private s = false -> Caller.found builtin Method.own_names s = false.
Proof.
  intros H. unfold Caller.found. rewrite H. cbn [andb]. rewrite orb_false_r.
  destruct (existsb (String.eqb s) Method.own_names) eqn:E; [|reflexivity].
  apply existsb_eqb_In, own_names_private in E. congruence.
Qed.

(** What [extend] does from a proxy with a public name: it runs to the end
    over public segments, and stops at the first private segment that
    ordinary lookup does not find. *)
Lemma extend_public (rest : list string) :
  forall req name,
    Method.is_private name = false ->
    Forall public rest ->
    Caller.extend builtin (Caller.Proxy (Method.Make req name)) rest =
      Ok (Some (Caller.Proxy
                  (Method.Make req (String.concat "." (name :: rest))))).
Proof.
  induction rest as [|s r IH]; intros req name Hn Hall; [reflexivity|].
  inversion Hall as [|? ? Hs Hr]; subst.
  cbn [Caller.extend]. unfold Caller.on_proxy.
  rewrite (public_not_found s Hs). unfold Method.getattr, Method.init.
  cbn [Method._Method__method_name Method._Method__request_method].
  rewrite Hs, (is_private_dotted name s Hn).
  rewrite (IH req _ (is_private_dotted name s Hn) Hr).
  now rewrite concat_dotted.
Qed.

Lemma extend_private (pre : list string) (s : string) (post : list string) :
  forall req name,
    Method.is_private name = false ->
    Forall public pre ->
    Method.is_private s = true ->
    Caller.found builtin Method.own_names s = false ->
    Caller.extend builtin (Caller.Proxy (Method.Make req name))
      (pre ++ s :: post)%list = Raise (Method.invalid_attribute s).
Proof.
  induction pre as [|x pre IH]; intros req name Hn Hall Hs Hf.
  - cbn [app Caller.extend]. unfold Caller.on_proxy. rewrite Hf.
    unfold Method.getattr. now rewrite Hs.
  - inversion Hall as [|? ? Hx Hpre]; subst.
    cbn [app Caller.extend]. unfold Caller.on_proxy.
    rewrite (public_not_found x Hx). unfold Method.getattr, Method.init.
    cbn [Method._Method__method_name Method._Method__request_method].
    rewrite Hx, (is_private_dotted name x Hn).
    now apply IH; [apply is_private_dotted| | |].
Qed.

(** Every list of segments is all public, or splits at its first private one. *)
Lemma first_private (l : list string) :
  Forall public l \/
  exists pre s post,
    l = (pre ++ s :: post)%list /\
    Forall public pre /\ Method.is_private s = true.
Proof.
  induction l as [|x l IH]; [left; constructor|].
  destruct (Method.is_private x) eqn:Hx.
  - right. exists [], x, l. repeat split; [constructor | exact Hx].
  - destruct IH as [Hall | (pre & s & post & -> & Hpre & Hs)].
    + left. now constructor.
    + right. exists (x :: pre), s, post. repeat split; [now constructor | exact Hs].
Qed.

(** A chain that reaches [__getattr__] at every segment does so on each of
    its prefixes. *)
Lemma hooked_prefix (a b : list string) :
  Caller.hooked builtin (a ++ b) = true -> Caller.hooked builtin a = true.
Proof.
  destruct a as [|x a]; [reflexivity|]. cbn [app Caller.hooked].
  rewrite forallb_app. intros H.
  apply andb_true_iff in H. destruct H as (Hx & H).
  apply andb_true_iff in H. destruct H as (Ha & _).
  now rewrite Hx, Ha.
Qed.

Lemma attribute_chain_public (first : string) (rest : list string) :
  Caller.found builtin Server.own_names first = false ->
  Forall public (first :: rest) ->
  attribute_chain first rest =
    Ok (Some (Caller.Proxy
                (Method.Make request (String.concat "." (first :: rest))))).
Proof.
  intros Hf Hall. inversion Hall as [|? ? Hp Hr]; subst.
  unfold Caller.attribute_chain, Caller.on_connection, Server.getattr,
    Method.init.
  rewrite Hf, Hp. now apply extend_public.
Qed.

Lemma attribute_chain_private (pre : list string) (s : string)
  (post : list string) (first : string) (rest : list string) :
  first :: rest = (pre ++ s :: post)%list ->
  Caller.hooked builtin (pre ++ [s]) = true ->
  Forall public pre ->
  Method.is_private s = true ->
  attribute_chain first rest = Raise (Method.invalid_attribute s).
Proof.
  intros Heq Hh Hpre Hs.
  unfold Caller.attribute_chain, Caller.on_connection, Server.getattr,
    Method.init.
  destruct pre as [|x pre]; cbn [app] in Heq, Hh; injection Heq as -> ->;
    cbn [Caller.hooked] in Hh; apply andb_true_iff in Hh;
    destruct Hh as (Hx & Hh); apply negb_true_iff in Hx; rewrite Hx.
  - now rewrite Hs.
  - inversion Hpre as [|? ? Hp Hpre']; subst. rewrite Hp.
    rewrite forallb_app in Hh. apply andb_true_iff in Hh.
    destruct Hh as (_ & Hh). cbn [forallb] in Hh.
    rewrite andb_true_r in Hh. apply negb_true_iff in Hh.
    now apply extend_private.
Qed.

(** C7 (amended): for every chain of accesses on the connection whose
    segments all reach [__getattr__], the proxy it yields carries the
    accessed segments joined with dots in access order, and invoking it
    dispatches that name to the connection's request method (a keyword named
    [self] apart, which the binding of [__call__] refuses); such a chain
    yields no proxy only when one of its segments is private. *)
Theorem chain_dispatches_dotted_name (first : string) (rest : list string) :
  Caller.hooked builtin (first :: rest) = true ->
  match attribute_chain first rest with
  | Ok (Some (Caller.Proxy m)) =>
      Method._Method__method_name m = String.concat "." (first :: rest) /\
      forall args kwargs,
        Method.call m args kwargs =
          if Dict.mem "self" kwargs then raise Method.self_given_twice
          else request (String.concat "." (first :: rest)) args kwargs
  | Ok _ => False
  | Raise e =>
      exists s,
        In s (first :: rest) /\ Method.is_private s = true /\
        e = Method.invalid_attribute s
  end.
Proof.
  intros Hh.
  destruct (first_private (first :: rest))
    as [Hall | (pre & s & post & Heq & Hpre & Hs)].
  - cbn [Caller.hooked] in Hh. apply andb_true_iff in Hh.
    destruct Hh as (Hf & _). apply negb_true_iff in Hf.
    rewrite (attribute_chain_public first rest Hf Hall).
    split; [reflexivity|]. intros args kwargs. reflexivity.
  - assert (Hh' : Caller.hooked builtin (pre ++ [s]) = true).
    { apply (hooked_prefix _ post). rewrite <- app_assoc. cbn [app].
      now rewrite <- Heq. }
    rewrite (attribute_chain_private pre s post first rest Heq Hh' Hpre Hs).
    exists s. repeat split; [|exact Hs].
    rewrite Heq. apply in_or_app. right. now left.
Qed.

(** C8 (amended): a segment that begins with an underscore and that ordinary
    lookup does not find, first of the chain or later after segments that
    reached [__getattr__], makes the access raise [AttributeError] for it at
    once: no proxy is built, and a call expression through the chain leaves
    the world untouched (nothing encoded, nothing posted, no random draw). *)
Theorem private_segment_rejected (pre : list string) (s : string)
  (post : list string) (first : string) (rest : list string)
  (args : list pyval) (kwargs : pydict) (w : world) :
  first :: rest = (pre ++ s :: post)%list ->
  Caller.hooked builtin (pre ++ [s]) = true ->
  Forall public pre ->
  Method.is_private s = true ->
  attribute_chain first rest = Raise (Method.invalid_attribute s) /\
  invoke first rest args kwargs w = Some (Raise (Method.invalid_attribute s), w).
Proof.
  intros Heq Hh Hpre Hs.
  pose proof (attribute_chain_private pre s post first rest Heq Hh Hpre Hs) as H.
  split; [exact H|].
  unfold Caller.invoke. now rewrite H.
Qed.

End Proxy.

(** ** Serialization and the round trip *)

Lemma ids_of_app (t u : list event) :
  ids_of (t ++ u) = (ids_of t ++ ids_of u)%list.
Proof.
  induction t as [|e t IH]; [reflexivity|].
  destruct e; cbn [app ids_of]; try exact IH.
  destruct (envelope_id data); cbn [app]; now rewrite IH.
Qed.

Lemma encoded_app (t u : list event) :
  encoded (t ++ u) = (encoded t ++ encoded u)%list.
Proof.
  induction t as [|e t IH]; [reflexivity|].
  destruct e; cbn [app encoded]; now rewrite IH.
Qed.


Lemma mem_remove (k : string) (d : pydict) :
  Dict.mem k (Dict.remove k d) = false.
Proof.
  unfold Dict.mem. induction d as [|[k' v] d IH]; [reflexivity|].
  cbn [Dict.remove]. destruct (String.eqb k k') eqn:E; [exact IH|].
  cbn [Dict.lookup]. now rewrite E.
Qed.

Section RoundTrip.

Variable dumps : pyval -> foreign_exn + string.
Variable entropy : nat -> Z.
Variable transport : list event -> string -> post_outcome.

Local Abbreviation serialize := (Server.serialize dumps entropy).
Local Abbreviation send_request := (Server.send_request dumps entropy transport).
Local Abbreviation request := (Server.request dumps entropy transport).

(** The members of the envelope, in the order they are written. *)
Local Abbreviation members method_name params flag w :=
  ([("jsonrpc", PStr "2.0"); ("method", PStr method_name)]
   ++ (if truthy params then [("params", params)] else [])
   ++ (if truthy flag then [] else [("id", PInt (draw entropy (rng_pos w)))]))%list.

(** Everything [serialize] does: it builds the envelope, drawing an id for a
    call that wants an answer, and hands it to the encoder, whose text or
    exception is its outcome. *)
Lemma serialize_exact (method_name : string) (params flag : pyval) (w : world) :
  serialize method_name params flag w =
    (match dumps (PDict (members method_name params flag w)) with
     | inl e => Raise (Foreign e)
     | inr body => Ok body
     end,
     MkWorld (if truthy flag then rng_pos w else S (rng_pos w)) (held w)
       (trace w ++ [EvDumps (PDict (members method_name params flag w))])).
Proof.
  unfold Server.serialize, Server.envelope, bind, Server.call_dumps,
    Server.randint, ret, log, draw.
  destruct (truthy flag), (truthy params); cbn [negb app trace rng_pos held];
    destruct (dumps _); reflexivity.
Qed.

Lemma members_entries (method_name : string) (params flag : pyval) (w : world) :
  Dict.lookup "jsonrpc" (members method_name params flag w) = Some (PStr "2.0") /\
  Dict.lookup "method" (members method_name params flag w) =
    Some (PStr method_name) /\
  Dict.lookup "params" (members method_name params flag w) =
    (if truthy params then Some params else None) /\
  Dict.lookup "id" (members method_name params flag w) =
    (if truthy flag then None else Some (PInt (draw entropy (rng_pos w)))).
Proof. destruct (truthy flag), (truthy params); repeat split. Qed.

Lemma draw_range (k : nat) : 1 <= draw entropy k <= sys_maxsize.
Proof.
  unfold draw. replace (sys_maxsize - 1 + 1) with sys_maxsize by lia.
  assert (0 < sys_maxsize) by reflexivity.
  pose proof (Z.mod_pos_bound (entropy k) sys_maxsize). lia.
Qed.


(** The events of the round trip once the body is encoded: the POST, then
    what is done with the response when there is one. *)
Lemma send_request_tail (method_name : string) (flag params : pyval)
  (w : world) (body : string) (w1 : world) :
  serialize method_name params flag w = (Ok body, w1) ->
  exists tail,
    let w' := snd (send_request method_name flag params w) in
    trace w' = (trace w1 ++ EvPost body :: tail)%list /\
    rng_pos w' = rng_pos w1 /\
    held w' = held w1 /\
    match transport (trace w1) body with
    | PostRaises _ => tail = []
    | PostReturns r =>
        tail = [EvRelease] \/
        truthy flag = false /\ status r = 200 /\ tail = [EvJson; EvRelease]
    end.
Proof.
  intros Hser.
  unfold Server.send_request, bind.
  rewrite Hser. unfold try_except, Server.post, log. cbn [trace rng_pos held].
  destruct (transport _ _) as [e | r].
  - exists []. destruct e as [[] txt]; unfold raise;
      cbn [snd trace rng_pos held]; repeat split.
  - unfold try_finally, Server.release, Server.read_json, raise, ret, lift, bind, try_except, log.
    destruct (status r =? 200) eqn:Hst; cbn [negb].
    + apply Z.eqb_eq in Hst.
      destruct (truthy flag); cbn [negb].
      * exists [EvRelease]. destruct (release_raises r);
          cbn [snd trace rng_pos held Nat.pred]; rewrite <- ?app_assoc;
          repeat split; now left.
      * exists [EvJson; EvRelease].
        destruct (json r) as [[[] txt] | v]; cbn [trace rng_pos held];
          try destruct (Server.parse_result v);
          destruct (release_raises r);
          cbn [snd trace rng_pos held Nat.pred]; rewrite <- ?app_assoc;
          repeat split; right; repeat split; assumption.
    + exists [EvRelease]. destruct (release_raises r);
        cbn [snd trace rng_pos held Nat.pred]; rewrite <- ?app_assoc;
        repeat split; now left.
Qed.

(** When the encoder raises, [send_request] ends there with its exception. *)
Lemma send_request_unencoded (method_name : string) (flag params : pyval)
  (w : world) (e : exn) (w1 : world) :
  serialize method_name params flag w = (Raise e, w1) ->
  send_request method_name flag params w = (Raise e, w1).
Proof. intros Hser. unfold Server.send_request, bind. now rewrite Hser. Qed.

(** The events of one run of [send_request], whatever the collaborators do. *)
Lemma send_request_events (method_name : string) (flag params : pyval)
  (w : world) :
  exists tail,
    let w' := snd (send_request method_name flag params w) in
    trace w' =
      (trace w ++ EvDumps (PDict (members method_name params flag w)) :: tail)%list /\
    rng_pos w' = (if truthy flag then rng_pos w else S (rng_pos w)) /\
    held w' = held w /\
    match dumps (PDict (members method_name params flag w)) with
    | inl e =>
        tail = [] /\
        fst (send_request method_name flag params w) = Raise (Foreign e)
    | inr body =>
        exists rest,
          tail = EvPost body :: rest /\
          (rest = [] \/ rest = [EvRelease] \/
           truthy flag = false /\ rest = [EvJson; EvRelease])
    end.
Proof.
  pose proof (serialize_exact method_name params flag w) as Hser.
  destruct (dumps (PDict (members method_name params flag w))) as [e | body].
  - exists []. rewrite (send_request_unencoded _ _ _ _ _ _ Hser).
    cbn [fst snd trace rng_pos held]. repeat split.
  - destruct (send_request_tail method_name flag params w _ _ Hser)
      as (tail & Htr & Hrng & Hheld & Htail).
    cbn zeta in *. cbn [trace rng_pos held] in Htr, Hrng, Hheld, Htail.
    exists (EvPost body :: tail). rewrite <- app_assoc in Htr.
    repeat split; try assumption.
    exists tail. split; [reflexivity|].
    destruct (transport _ _); [now left|].
    destruct Htail as [-> | (Hf & _ & ->)]; [right; now left | right; now right].
Qed.

(** C9: once the transport has answered the POST with a response, every run
    of [send_request] ends with the release of that response, called exactly
    once, whatever happens in between (bad status, body that does not decode,
    protocol error, result, notification) and whatever the collaborators
    raise; no response is left held. *)
Theorem response_always_released (method_name : string) (flag params : pyval)
  (w : world) (body : string) (w1 : world) (resp : response) :
  serialize method_name params flag w = (Ok body, w1) ->
  transport (trace w1) body = PostReturns resp ->
  exists mid,
    let w' := snd (send_request method_name flag params w) in
    trace w' = (trace w1 ++ EvPost body :: mid ++ [EvRelease])%list /\
    ~ In EvRelease mid /\
    held w' = held w.
Proof.
  intros Hser Hpost.
  destruct (send_request_tail method_name flag params w body w1 Hser)
    as (tail & Htr & _ & Hheld & Htail).
  rewrite Hpost in Htail.
  assert (Hw1 : held w1 = held w).
  { pose proof (serialize_exact method_name params flag w) as Hs.
    rewrite Hs in Hser. injection Hser as _ <-. reflexivity. }
  cbn zeta in *. rewrite Hheld, Hw1.
  destruct Htail as [-> | (_ & _ & ->)].
  - exists []. repeat split; [exact Htr | intros []].
  - exists [EvJson]. repeat split; [exact Htr|].
    intros [H | []]. discriminate H.
Qed.

(** C4: a call flagged as a notification encodes an envelope without an
    ['id'] and never reads the response body; a call that is not flagged
    encodes an envelope whose ['id'] is the integer of [1..sys.maxsize] that
    one fresh draw of the random generator gives.  The POST that follows
    carries the encoder's text for that envelope; there is none when the
    encoder raises. *)
Theorem notification_envelope_and_reply (method_name : string)
  (flag params : pyval) (w : world) :
  exists data tail,
    let w' := snd (send_request method_name flag params w) in
    trace w' = (trace w ++ EvDumps (PDict data) :: tail)%list /\
    match dumps (PDict data) with
    | inl _ => tail = []
    | inr body => exists rest, tail = EvPost body :: rest
    end /\
    if truthy flag then
      Dict.mem "id" data = false /\ ~ In EvJson tail /\ rng_pos w' = rng_pos w
    else
      Dict.lookup "id" data = Some (PInt (draw entropy (rng_pos w))) /\
      1 <= draw entropy (rng_pos w) <= sys_maxsize /\
      rng_pos w' = S (rng_pos w).
Proof.
  destruct (send_request_events method_name flag params w)
    as (tail & Htr & Hrng & _ & Htail).
  destruct (members_entries method_name params flag w) as (_ & _ & _ & Hid).
  exists (members method_name params flag w), tail. cbn zeta in *.
  split; [exact Htr|]. split.
  - destruct (dumps _) as [e | body]; [tauto|].
    destruct Htail as (rest & -> & _). now exists rest.
  - destruct (truthy flag) eqn:Hflag.
    + unfold Dict.mem. rewrite Hid. repeat split; [|exact Hrng].
      destruct (dumps _) as [e | body]; [destruct Htail as (-> & _); intros []|].
      destruct Htail as (rest & -> & [-> | [-> | (Hf & _)]]);
        [| |discriminate Hf]; cbn [In]; intros H;
        repeat (destruct H as [H | H]; [discriminate H|]); exact H.
    + repeat split; try exact Hid; try exact Hrng; apply draw_range.
Qed.

(** A call that draws an id consumes one draw and adds that id to those of
    the trace; a notification does neither. *)
Lemma send_request_ids (method_name : string) (flag params : pyval)
  (w : world) :
  let w' := snd (send_request method_name flag params w) in
  rng_pos w' = (if truthy flag then rng_pos w else S (rng_pos w)) /\
  ids_of (trace w') =
    (ids_of (trace w) ++
     (if truthy flag then [] else [draw entropy (rng_pos w)]))%list.
Proof.
  destruct (send_request_events method_name flag params w)
    as (tail & Htr & Hrng & _ & Htail).
  destruct (members_entries method_name params flag w) as (_ & _ & _ & Hid).
  cbn zeta in *. split; [exact Hrng|].
  assert (Hnil : ids_of tail = []).
  { destruct (dumps _) as [e | body]; [now destruct Htail as (-> & _)|].
    destruct Htail as (rest & -> & [-> | [-> | (_ & ->)]]); reflexivity. }
  rewrite Htr, ids_of_app. cbn [ids_of envelope_id]. rewrite Hid, Hnil.
  destruct (truthy flag); now rewrite ?app_nil_r.
Qed.

(** What [parse_result] and [send_request] raise is never the
    mixed-arguments error. *)
Lemma parse_result_not_mixed (v : pyval) :
  Server.parse_result v <> Raise Server.mixed_arguments.
Proof.
  unfold Server.parse_result, Server.py_get.
  destruct v as [| | | | | | |d]; try discriminate.
  cbv zeta. destruct (truthy _).
  - destruct (Dict.get "error" PNone d); discriminate.
  - destruct (Dict.lookup "result" d); discriminate.
Qed.

Lemma send_request_not_mixed (method_name : string) (flag params : pyval)
  (w : world) :
  fst (send_request method_name flag params w) <> Raise Server.mixed_arguments.
Proof.
  pose proof (serialize_exact method_name params flag w) as Hser.
  destruct (dumps (PDict (members method_name params flag w))) as [e | body].
  - rewrite (send_request_unencoded _ _ _ _ _ _ Hser). cbn [fst]. discriminate.
  - unfold Server.send_request, bind.
    rewrite Hser. unfold try_except, Server.post, log. cbn [trace rng_pos held].
    destruct (transport _ _) as [e | r].
    + destruct e as [[] txt]; unfold raise; cbn [fst]; discriminate.
    + unfold try_finally, Server.release, Server.read_json, raise, ret, lift,
        bind, try_except, log.
      destruct (status r =? 200); cbn [negb];
        [destruct (truthy flag); cbn [negb];
         [|destruct (json r) as [[[] txt] | v];
           [| | | |pose proof (parse_result_not_mixed v) as Hp;
                   destruct (Server.parse_result v)]]|];
        destruct (release_raises r); cbn [fst]; try discriminate; exact Hp.
Qed.

(** [__request] once the arguments are not mixed: the flag and the
    parameters it hands to [send_request]. *)
Lemma request_unmixed (method_name : string) (args : list pyval)
  (kwargs : pydict) :
  args = [] \/ Dict.remove "_notification" kwargs = [] ->
  request method_name args kwargs =
    send_request method_name (Dict.get "_notification" (PBool false) kwargs)
      (if truthy (Server.unwrap args) then Server.unwrap args
       else PDict (Dict.remove "_notification" kwargs)).
Proof.
  intros H. unfold Server.request, Dict.pop.
  destruct H as [-> | ->]; [reflexivity|].
  cbn [truthy List.length Nat.eqb negb]. now rewrite andb_false_r.
Qed.

Lemma request_mixed (method_name : string) (args : list pyval)
  (kwargs : pydict) (w : world) :
  args <> [] -> Dict.remove "_notification" kwargs <> [] ->
  request method_name args kwargs w = (Raise Server.mixed_arguments, w).
Proof.
  intros Ha Hk. unfold Server.request, Dict.pop.
  destruct args as [|a args]; [contradiction|].
  destruct (Dict.remove "_notification" kwargs) as [|x d]; [contradiction|].
  reflexivity.
Qed.

End RoundTrip.

(** ** Dispatch through the proxy *)



Section Dispatch.

Variable builtin : string -> bool.
Variable dumps : pyval -> foreign_exn + string.
Variable entropy : nat -> Z.
Variable transport : list event -> string -> post_outcome.

Local Abbreviation send_request := (Server.send_request dumps entropy transport).
Local Abbreviation request := (Server.request dumps entropy transport).
Local Abbreviation attribute_chain :=
  (Caller.attribute_chain builtin dumps entropy transport).
Local Abbreviation invoke := (Caller.invoke builtin dumps entropy transport).
Local Abbreviation session := (Caller.session builtin dumps entropy transport).

(** A proxy of this connection: bound to its request method, under a name
    that does not begin with an underscore. *)
Local Abbreviation bound m :=
  (Method._Method__request_method m = request /\
   Method.is_private (Method._Method__method_name m) = false).

(** Whatever a chain of accesses yields from a proxy of the connection, the
    proxy in it is one of the connection. *)
Lemma extend_bound (rest : list string) :
  forall m t,
    bound m ->
    Caller.extend builtin (Caller.Proxy m) rest = Ok (Some t) ->
    match t with
    | Caller.Proxy m' | Caller.Attribute (Some m') _ => bound m'
    | Caller.Attribute None _ => False
    end.
Proof.
  induction rest as [|s r IH]; intros m t Hm H.
  - cbn [Caller.extend] in H. injection H as <-. exact Hm.
  - cbn [Caller.extend] in H. unfold Caller.on_proxy in H.
    destruct (Caller.found builtin Method.own_names s).
    + destruct r; cbn [Caller.extend] in H; [|discriminate H].
      injection H as <-. exact Hm.
    + unfold Method.getattr, Method.init in H.
      destruct (Method.is_private s); [discriminate H|].
      destruct Hm as (Hreq & Hname).
      rewrite (is_private_dotted _ s Hname) in H.
      apply IH in H; [exact H|].
      cbn [Method._Method__request_method Method._Method__method_name].
      split; [exact Hreq | now apply is_private_dotted].
Qed.

Lemma attribute_chain_bound (first : string) (rest : list string)
  (t : Caller.target) :
  attribute_chain first rest = Ok (Some t) ->
  match t with
  | Caller.Proxy m | Caller.Attribute (Some m) _ => bound m
  | Caller.Attribute None _ => True
  end.
Proof.
  unfold Caller.attribute_chain, Caller.on_connection, Server.getattr,
    Method.init.
  destruct (Caller.found builtin Server.own_names first).
  - destruct rest; cbn [Caller.extend]; [|discriminate].
    intros H. injection H as <-. exact I.
  - destruct (Method.is_private first) eqn:Hp; [discriminate|].
    intros H. apply extend_bound in H; [|split; [reflexivity | exact Hp]].
    destruct t as [m | [m|] n]; [exact H | exact H | destruct H].
Qed.

(** A chain ends on a proxy only by public segments that ordinary lookup
    does not find. *)
Lemma extend_to_proxy (r : list string) :
  forall t m',
    Caller.extend builtin t r = Ok (Some (Caller.Proxy m')) ->
    exists m0,
      t = Caller.Proxy m0 /\
      Forall (fun s => Method.is_private s = false) r.
Proof.
  induction r as [|s r IH]; intros t m' Hr.
  - cbn [Caller.extend] in Hr. injection Hr as ->. exists m'.
    split; [reflexivity | constructor].
  - cbn [Caller.extend] in Hr. destruct t as [m0 | o n]; [|discriminate Hr].
    exists m0. split; [reflexivity|].
    unfold Caller.on_proxy in Hr.
    destruct (Caller.found builtin Method.own_names s).
    + apply IH in Hr. destruct Hr as (m1 & Hm1 & _). discriminate Hm1.
    + unfold Method.getattr in Hr.
      destruct (Method.is_private s) eqn:Hs; [discriminate Hr|].
      destruct (Method.init _ _); [|discriminate Hr].
      apply IH in Hr. destruct Hr as (_ & _ & Hr). now constructor.
Qed.

Lemma attribute_chain_proxy_segments (first : string) (rest : list string)
  (m : Method.t) :
  attribute_chain first rest = Ok (Some (Caller.Proxy m)) ->
  Caller.found builtin Server.own_names first = false /\
  Forall (fun s => Method.is_private s = false) (first :: rest).
Proof.
  unfold Caller.attribute_chain, Caller.on_connection, Server.getattr,
    Method.init.
  destruct (Caller.found builtin Server.own_names first) eqn:Hf.
  - intros H. apply extend_to_proxy in H.
    destruct H as (m0 & Hm0 & _). discriminate Hm0.
  - destruct (Method.is_private first) eqn:Hp; [discriminate|].
    intros H. apply extend_to_proxy in H. destruct H as (_ & _ & Hall).
    split; [reflexivity | now constructor].
Qed.

(** A proxy reached from the connection carries the dotted name of the
    segments, all of which went through [__getattr__]. *)
Lemma attribute_chain_inv (first : string) (rest : list string) (m : Method.t) :
  attribute_chain first rest = Ok (Some (Caller.Proxy m)) ->
  m = Method.Make request (String.concat "." (first :: rest)).
Proof.
  intros H.
  destruct (attribute_chain_proxy_segments first rest m H) as (Hf & Hall).
  rewrite (attribute_chain_public builtin dumps entropy transport first rest
             Hf Hall) in H.
  now injection H as <-.
Qed.

(** What a modelled call expression runs: nothing but an exception raised
    before the dispatch, or [__request] under a public name. *)
Lemma invoke_run (first : string) (rest : list string) (args : list pyval)
  (kwargs : pydict) (w : world) (r : result pyval) (w' : world) :
  invoke first rest args kwargs w = Some (r, w') ->
  (exists e, r = Raise e /\ w' = w) \/
  exists name,
    Method.is_private name = false /\ request name args kwargs w = (r, w').
Proof.
  unfold Caller.invoke.
  destruct (attribute_chain first rest) as [[t|] | e] eqn:Hc.
  - apply attribute_chain_bound in Hc.
    assert (Hcall : forall m,
               bound m ->
               Some (Method.call m args kwargs w) = Some (r, w') ->
               (exists e, r = Raise e /\ w' = w) \/
               exists name,
                 Method.is_private name = false /\
                 request name args kwargs w = (r, w')).
    { intros m (Hreq & Hname) H. unfold Method.call in H.
      destruct (Dict.mem "self" kwargs).
      - injection H as <- <-. left. eexists. split; reflexivity.
      - rewrite Hreq in H. injection H as H. right. eexists.
        split; [exact Hname | exact H]. }
    destruct t as [m | [m|] n]; [now apply Hcall | | discriminate].
    destruct (String.eqb n "__call__"); [now apply Hcall | discriminate].
  - discriminate.
  - intros H. injection H as <- <-. left. eexists. split; reflexivity.
Qed.

(** C3 (amended): a call through a proxy with positional arguments and, once
    the [_notification] flag is taken out, keyword arguments left, fails and
    leaves the world as it was, nothing encoded and no POST issued: with the
    mixed-arguments [ProtocolError], or, when one of the keywords is named
    [self], with the [TypeError] that the binding of [__call__] raises. *)
Theorem mixed_arguments_rejected (first : string) (rest : list string)
  (m : Method.t) (args : list pyval) (kwargs : pydict) (w : world) :
  attribute_chain first rest = Ok (Some (Caller.Proxy m)) ->
  args <> [] ->
  Dict.remove "_notification" kwargs <> [] ->
  Method.call m args kwargs w =
    (Raise (if Dict.mem "self" kwargs then Method.self_given_twice
            else Server.mixed_arguments), w) /\
  is_ProtocolError Server.mixed_arguments = true.
Proof.
  intros Hm Ha Hk. rewrite (attribute_chain_inv first rest m Hm).
  split; [|reflexivity].
  unfold Method.call. cbn [Method._Method__request_method
    Method._Method__method_name].
  destruct (Dict.mem "self" kwargs); [reflexivity|].
  now apply request_mixed.
Qed.


(** C10: for a call with positional arguments and [_notification]
    as its only keyword argument, the mixed-arguments error is not raised and
    the flag is not forwarded: the call is [send_request] with the flag as
    [is_notification] and the positional arguments alone as parameters (the
    tuple, or the sole positional mapping unwrapped), which is what the
    envelope carries under ['params']; the key [_notification] is in the
    parameters exactly when the sole positional argument is a mapping that
    has it. *)
Theorem keyword_flag_not_forwarded (method_name : string) (args : list pyval)
  (v : pyval) (w : world) :
  args <> [] ->
  request method_name args [("_notification", v)] w =
    send_request method_name v (Server.unwrap args) w /\
  fst (request method_name args [("_notification", v)] w) <>
    Raise Server.mixed_arguments /\
  (exists data,
     encoded (trace (snd (request method_name args [("_notification", v)] w))) =
       (encoded (trace w) ++ [data])%list /\
     envelope_params data =
       (if truthy (Server.unwrap args) then Some (Server.unwrap args) else None)) /\
  (has_key "_notification" (Server.unwrap args) = true <->
   exists m, args = [PDict m] /\ Dict.mem "_notification" m = true).
Proof.
  intros Ha.
  assert (Heq : request method_name args [("_notification", v)] w =
                send_request method_name v (Server.unwrap args) w).
  { rewrite (request_unmixed dumps entropy transport method_name args
               [("_notification", v)]) by (right; reflexivity).
    cbn [Dict.get Dict.lookup Dict.remove String.eqb Ascii.eqb Bool.eqb].
    destruct (truthy (Server.unwrap args)) eqn:Ht; [reflexivity|].
    destruct args as [|a l]; [contradiction|].
    destruct a as [| | | | | | |d], l as [|a2 l]; try discriminate Ht.
    destruct d; [reflexivity | discriminate Ht]. }
  split; [exact Heq|]. rewrite Heq.
  split; [apply send_request_not_mixed|]. split.
  - destruct (send_request_events dumps entropy transport method_name v
                (Server.unwrap args) w) as (tail & Htr & _ & _ & Htail).
    destruct (members_entries entropy method_name (Server.unwrap args) v w)
      as (_ & _ & Hparams & _).
    assert (Hnil : encoded tail = []).
    { destruct (dumps _) as [e | body]; [now destruct Htail as (-> & _)|].
      destruct Htail as (rest & -> & [-> | [-> | (_ & ->)]]); reflexivity. }
    eexists. cbn zeta in Htr. rewrite Htr, encoded_app. cbn [encoded].
    rewrite Hnil. split.
    + reflexivity.
    + exact Hparams.
  - split.
    + destruct args as [|a l]; [discriminate|].
      destruct a as [| | | | | | |d], l as [|a2 l]; cbn; try discriminate.
      intros H. now exists d.
    + intros (m & -> & Hm). exact Hm.
Qed.

(** One dispatch draws no id, or the next one, and leaves no response held. *)
Lemma request_ids (method_name : string) (args : list pyval)
  (kwargs : pydict) (w : world) :
  let w' := snd (request method_name args kwargs w) in
  held w' = held w /\
  (rng_pos w' = rng_pos w /\ ids_of (trace w') = ids_of (trace w) \/
   rng_pos w' = S (rng_pos w) /\
   ids_of (trace w') = (ids_of (trace w) ++ [draw entropy (rng_pos w)])%list).
Proof.
  cbn zeta.
  assert (Hsend : forall flag params,
            let w' := snd (send_request method_name flag params w) in
            held w' = held w /\
            (rng_pos w' = rng_pos w /\ ids_of (trace w') = ids_of (trace w) \/
             rng_pos w' = S (rng_pos w) /\
             ids_of (trace w') =
               (ids_of (trace w) ++ [draw entropy (rng_pos w)])%list)).
  { intros flag params. cbn zeta.
    destruct (send_request_events dumps entropy transport method_name flag
                params w) as (tail & _ & _ & Hheld & _).
    destruct (send_request_ids dumps entropy transport method_name flag params w)
      as (Hr & Ht).
    cbn zeta in *. split; [exact Hheld|].
    destruct (truthy flag); [left | right]; rewrite ?app_nil_r in Ht;
      split; assumption. }
  destruct args as [|a l].
  - rewrite (request_unmixed dumps entropy transport _ [] kwargs)
      by (left; reflexivity).
    apply Hsend.
  - destruct (Dict.remove "_notification" kwargs) as [|x d] eqn:Hk.
    + rewrite (request_unmixed dumps entropy transport _ (a :: l) kwargs)
        by (right; exact Hk).
      apply Hsend.
    + rewrite (request_mixed dumps entropy transport _ (a :: l) kwargs w)
        by (rewrite ?Hk; discriminate).
      split; [reflexivity | left; split; reflexivity].
Qed.

(** One call expression draws no id, or the next one. *)
Lemma invoke_ids (first : string) (rest : list string) (args : list pyval)
  (kwargs : pydict) (w : world) (r : result pyval) (w' : world) :
  invoke first rest args kwargs w = Some (r, w') ->
  held w' = held w /\
  (rng_pos w' = rng_pos w /\ ids_of (trace w') = ids_of (trace w) \/
   rng_pos w' = S (rng_pos w) /\
   ids_of (trace w') = (ids_of (trace w) ++ [draw entropy (rng_pos w)])%list).
Proof.
  intros H. apply invoke_run in H.
  destruct H as [(e & _ & ->) | (name & _ & Hreq)].
  - split; [reflexivity | left; split; reflexivity].
  - pose proof (request_ids name args kwargs w) as Hids.
    cbn zeta in Hids. now rewrite Hreq in Hids.
Qed.



End Dispatch.

(** ** The properties on the sample connection *)

Lemma chain_dispatches_dotted_name_witness :
  match
    Caller.attribute_chain Sample.builtin Sample.dumps Sample.entropy
      Sample.transport "math" ["add"]
  with
  | Ok (Some (Caller.Proxy m)) =>
      Method._Method__method_name m = String.concat "." ["math"; "add"] /\
      forall args kwargs,
        Method.call m args kwargs =
          if Dict.mem "self" kwargs then raise Method.self_given_twice
          else
            Server.request Sample.dumps Sample.entropy Sample.transport
              (String.concat "." ["math"; "add"]) args kwargs
  | Ok _ => False
  | Raise e =>
      exists s,
        In s ["math"; "add"] /\ Method.is_private s = true /\
        e = Method.invalid_attribute s
  end.
Proof.
  apply (chain_dispatches_dotted_name Sample.builtin Sample.dumps
           Sample.entropy Sample.transport "math" ["add"]).
  reflexivity.
Defined.

(** C7 (counterexample): [server.math.add.__call__(1)] accesses the segments
    [math], [add], [__call__] and dispatches the method ["math.add"]: ordinary
    lookup finds [__call__] on the proxy; and [server.request] is the
    attribute that [__init__] set, not a proxy. *)
Lemma bound_call_dispatches_shorter_name :
  option_map (fun p => encoded (trace (snd p)))
    (Caller.invoke Sample.builtin Sample.dumps Sample.entropy Sample.transport
       "math" ["add"; "__call__"] [PInt 1] [] Sample.start) =
    Some [PDict [("jsonrpc", PStr "2.0"); ("method", PStr "math.add");
                 ("params", PTuple [PInt 1]); ("id", PInt 42)]] /\
  String.concat "." ["math"; "add"; "__call__"] <> "math.add" /\
  Caller.attribute_chain Sample.builtin Sample.dumps Sample.entropy
    Sample.transport "request" [] =
    Ok (Some (Caller.Attribute None "request")).
Proof. repeat split. discriminate. Qed.

Lemma private_segment_rejected_witness :
  Caller.attribute_chain Sample.builtin Sample.dumps Sample.entropy
    Sample.transport "a" ["b"; "_c"; "d"] =
    Raise (Method.invalid_attribute "_c") /\
  Caller.invoke Sample.builtin Sample.dumps Sample.entropy Sample.transport
    "a" ["b"; "_c"; "d"] [PInt 1] [] Sample.start =
    Some (Raise (Method.invalid_attribute "_c"), Sample.start).
Proof.
  apply (private_segment_rejected Sample.builtin Sample.dumps Sample.entropy
           Sample.transport ["a"; "b"] "_c" ["d"]).
  - reflexivity.
  - reflexivity.
  - repeat constructor.
  - reflexivity.
Defined.

(** C8 (counterexample): the segment [__call__] begins with an underscore,
    yet [server.foo.__call__] raises nothing, and invoking it posts a request
    for the method ["foo"]; [server._Server__request] raises nothing
    either. *)
Lemma existing_private_names_are_found :
  Method.is_private "__call__" = true /\
  Caller.attribute_chain Sample.builtin Sample.dumps Sample.entropy
    Sample.transport "foo" ["__call__"] =
    Ok (Some
          (Caller.Attribute
             (Some
                (Method.Make
                   (Server.request Sample.dumps Sample.entropy Sample.transport)
                   "foo"))
             "__call__")) /\
  option_map (fun p => posted (trace (snd p)))
    (Caller.invoke Sample.builtin Sample.dumps Sample.entropy Sample.transport
       "foo" ["__call__"] [PInt 1] [] Sample.start) =
    Some ["jsonrpc,method,params,id"] /\
  Caller.attribute_chain Sample.builtin Sample.dumps Sample.entropy
    Sample.transport "_Server__request" [] =
    Ok (Some (Caller.Attribute None "_Server__request")).
Proof. repeat split. Qed.

Lemma mixed_arguments_rejected_witness :
  Method.call
    (Method.Make (Server.request Sample.dumps Sample.entropy Sample.transport)
       "math.add")
    [PInt 1] [("y", PInt 2); ("_notification", PBool true)] Sample.start =
    (Raise
       (if Dict.mem "self" [("y", PInt 2); ("_notification", PBool true)]
        then Method.self_given_twice
        else Server.mixed_arguments),
     Sample.start) /\
  is_ProtocolError Server.mixed_arguments = true.
Proof.
  apply (mixed_arguments_rejected Sample.builtin Sample.dumps Sample.entropy
           Sample.transport "math" ["add"]).
  - reflexivity.
  - discriminate.
  - discriminate.
Defined.

(** C3 (counterexample): [server.foo(1, self=2)] has a positional and a
    keyword argument and fails with a [TypeError], which is no
    [ProtocolError]: [__call__] cannot bind a keyword named [self]. *)
Lemma self_keyword_is_a_type_error :
  Caller.invoke Sample.builtin Sample.dumps Sample.entropy Sample.transport
    "foo" [] [PInt 1] [("self", PInt 2)] Sample.start =
    Some (Raise (TypeError "__call__() got multiple values for argument 'self'"),
          Sample.start) /\
  is_ProtocolError
    (TypeError "__call__() got multiple values for argument 'self'") = false.
Proof. split; reflexivity. Qed.

Lemma response_always_released_witness :
  exists mid,
    let w' :=
      snd (Server.send_request Sample.dumps Sample.entropy Sample.failing
             "ping" (PBool false) (PTuple []) Sample.start) in
    trace w' =
      (trace
         (MkWorld 1 0
            [EvDumps
               (PDict [("jsonrpc", PStr "2.0"); ("method", PStr "ping");
                       ("id", PInt 42)])])
       ++ EvPost "jsonrpc,method,id" :: mid ++ [EvRelease])%list /\
    ~ In EvRelease mid /\
    held w' = held Sample.start.
Proof.
  apply (response_always_released Sample.dumps Sample.entropy Sample.failing
           "ping" (PBool false) (PTuple []) Sample.start "jsonrpc,method,id"
           (MkWorld 1 0
              [EvDumps
                 (PDict [("jsonrpc", PStr "2.0"); ("method", PStr "ping");
                         ("id", PInt 42)])])
           (MkResponse 500 "Internal Server Error" (inr PNone) None)).
  - reflexivity.
  - reflexivity.
Defined.



Lemma keyword_flag_not_forwarded_witness :
  Server.request Sample.dumps Sample.entropy Sample.transport "log"
    [PStr "started"; PInt 3] [("_notification", PBool true)] Sample.start =
    Server.send_request Sample.dumps Sample.entropy Sample.transport "log"
      (PBool true) (Server.unwrap [PStr "started"; PInt 3]) Sample.start /\
  fst (Server.request Sample.dumps Sample.entropy Sample.transport "log"
         [PStr "started"; PInt 3] [("_notification", PBool true)] Sample.start)
    <> Raise Server.mixed_arguments /\
  (exists data,
     encoded
       (trace
          (snd (Server.request Sample.dumps Sample.entropy Sample.transport
                  "log" [PStr "started"; PInt 3]
                  [("_notification", PBool true)] Sample.start))) =
       (encoded (trace Sample.start) ++ [data])%list /\
     envelope_params data =
       (if truthy (Server.unwrap [PStr "started"; PInt 3])
        then Some (Server.unwrap [PStr "started"; PInt 3]) else None)) /\
  (has_key "_notification" (Server.unwrap [PStr "started"; PInt 3]) = true <->
   exists m,
     [PStr "started"; PInt 3] = [PDict m] /\ Dict.mem "_notification" m = true).
Proof.
  apply (keyword_flag_not_forwarded Sample.dumps Sample.entropy
           Sample.transport "log" [PStr "started"; PInt 3] (PBool true)
           Sample.start).
  discriminate.
Defined.



(** ** The exit paths of [send_request], one by one *)

Example exit_with_result :
  Server.send_request Sample.dumps Sample.entropy Sample.transport
    "ping" (PBool false) (PTuple []) Sample.start =
  (Ok (PInt 7),
   MkWorld 1 0
     [EvDumps (PDict [("jsonrpc", PStr "2.0"); ("method", PStr "ping");
                      ("id", PInt 42)]);
      EvPost "jsonrpc,method,id"; EvJson; EvRelease]).
Proof. reflexivity. Qed.

Example exit_after_notification :
  Server.send_request Sample.dumps Sample.entropy Sample.transport
    "ping" (PBool true) (PTuple [PInt 1]) Sample.start =
  (Ok PNone,
   MkWorld 0 0
     [EvDumps (PDict [("jsonrpc", PStr "2.0"); ("method", PStr "ping");
                      ("params", PTuple [PInt 1])]);
      EvPost "jsonrpc,method,params"; EvRelease]).
Proof. reflexivity. Qed.

Example exit_on_status :
  Server.send_request Sample.dumps Sample.entropy Sample.failing
    "ping" (PBool false) (PTuple []) Sample.start =
  (Raise (TransportError
            [ArgFormat "HTTP %d %s" [PInt 500; PStr "Internal Server Error"]]),
   MkWorld 1 0
     [EvDumps (PDict [("jsonrpc", PStr "2.0"); ("method", PStr "ping");
                      ("id", PInt 42)]);
      EvPost "jsonrpc,method,id"; EvRelease]).
Proof. reflexivity. Qed.

Example exit_on_undecodable_body :
  Server.send_request Sample.dumps Sample.entropy
    (fun _ _ =>
       PostReturns
         (MkResponse 200 "OK" (inl (MkForeign ValueError "Expecting value")) None))
    "ping" (PBool false) (PTuple []) Sample.start =
  (Raise (TransportError
            [ArgVal (PStr "Cannot deserialize response body");
             ArgCause (MkForeign ValueError "Expecting value")]),
   MkWorld 1 0
     [EvDumps (PDict [("jsonrpc", PStr "2.0"); ("method", PStr "ping");
                      ("id", PInt 42)]);
      EvPost "jsonrpc,method,id"; EvJson; EvRelease]).
Proof. reflexivity. Qed.

Example exit_on_protocol_error :
  Server.send_request Sample.dumps Sample.entropy
    (fun _ _ => PostReturns (MkResponse 200 "OK" (inr (PList [])) None))
    "ping" (PBool false) (PTuple []) Sample.start =
  (Raise (ProtocolError [ArgVal (PStr "Response is not a dictionary")]),
   MkWorld 1 0
     [EvDumps (PDict [("jsonrpc", PStr "2.0"); ("method", PStr "ping");
                      ("id", PInt 42)]);
      EvPost "jsonrpc,method,id"; EvJson; EvRelease]).
Proof. reflexivity. Qed.

Example exit_when_post_raises :
  Server.send_request Sample.dumps Sample.entropy
    (fun _ _ => PostRaises (MkForeign ClientOSError "Connection refused"))
    "ping" (PBool false) (PTuple []) Sample.start =
  (Raise (TransportError
            [ArgFormat "Error calling method %r" [PStr "ping"];
             ArgCause (MkForeign ClientOSError "Connection refused")]),
   MkWorld 1 0
     [EvDumps (PDict [("jsonrpc", PStr "2.0"); ("method", PStr "ping");
                      ("id", PInt 42)]);
      EvPost "jsonrpc,method,id"]).
Proof. reflexivity. Qed.

(** The examples of the specification for [parse_result]. *)
Example parse_result_42 :
  Server.parse_result (PDict [("result", PInt 42)]) = Ok (PInt 42).
Proof. reflexivity. Qed.

Example parse_result_error_object :
  Server.parse_result
    (PDict [("error", PDict [("code", PInt 1); ("message", PStr "bad")])]) =
  Raise (ProtocolError
           [ArgVal (PInt 1); ArgVal (PStr "bad");
            ArgVal (PDict [("error",
                            PDict [("code", PInt 1); ("message", PStr "bad")])])]).
Proof. reflexivity. Qed.

Example parse_result_empty :
  Server.parse_result (PDict []) =
  Raise (ProtocolError [ArgVal (PStr "Response without a result field")]).
Proof. reflexivity. Qed.

Example parse_result_string :
  Server.parse_result (PStr "not-a-dict") =
  Raise (ProtocolError [ArgVal (PStr "Response is not a dictionary")]).
Proof. reflexivity. Qed.

(** * Further properties *)

(** ** What [parse_result] returns and raises *)

(** X1: [parse_result] returns a value exactly for a mapping with no truthy
    ['error'] and a ['result'] key, and the value is the one under that key,
    whatever it is. *)
Theorem parse_result_ok_iff (res v : pyval) :
  Server.parse_result res = Ok v <->
  exists d,
    res = PDict d /\
    truthy (Dict.get "error" PNone d) = false /\
    Dict.lookup "result" d = Some v.
Proof.
  split.
  - destruct res as [| | | | | | |d]; try discriminate.
    unfold Server.parse_result. cbv zeta.
    destruct (truthy (Dict.get "error" PNone d)) eqn:Herr.
    + destruct (Server.py_get _ "code" _); [|discriminate].
      destruct (Server.py_get _ "message" _); discriminate.
    + destruct (Dict.lookup "result" d) as [x|] eqn:Hres; [|discriminate].
      intros H. injection H as ->. now exists d.
  - intros (d & -> & Herr & Hres). now apply parse_result_returns_result.
Qed.

Lemma parse_result_error_mapping_witness :
  Server.parse_result
    (PDict [("result", PInt 1); ("error", PDict [("code", PInt 7)])]) =
  Raise (ProtocolError
           [ArgVal (PInt 7); ArgVal (PStr EmptyString);
            ArgVal (PDict [("result", PInt 1);
                           ("error", PDict [("code", PInt 7)])])]).
Proof.
  apply (parse_result_error_mapping
           [("result", PInt 1); ("error", PDict [("code", PInt 7)])]
           [("code", PInt 7)]).
  - reflexivity.
  - discriminate.
Defined.

(** X3: whatever [parse_result] raises is a [ProtocolError], except for a
    mapping whose truthy ['error'] is not a mapping, where it is the
    [AttributeError] of the missing [.get]. *)
Theorem parse_result_raises (res : pyval) (e : exn) :
  Server.parse_result res = Raise e ->
  is_ProtocolError e = true \/
  exists d,
    res = PDict d /\
    truthy (Dict.get "error" PNone d) = true /\
    is_dict (Dict.get "error" PNone d) = false /\
    e = AttributeError
          ("'" ++ type_name (Dict.get "error" PNone d)
               ++ "' object has no attribute 'get'").
Proof.
  destruct res as [| | | | | | |d];
    try (intros H; injection H as <-; now left).
  unfold Server.parse_result, Server.py_get. cbv zeta.
  destruct (truthy (Dict.get "error" PNone d)) eqn:Herr.
  - destruct (Dict.get "error" PNone d) as [| | | | | | |err] eqn:Hget;
      intros H; injection H as <-;
      try (right; exists d; rewrite Hget; repeat split; assumption).
    now left.
  - destruct (Dict.lookup "result" d); [discriminate|].
    intros H; injection H as <-. now left.
Qed.

Lemma parse_result_raises_witness :
  is_ProtocolError
    (ProtocolError [ArgVal (PStr "Response without a result field")]) = true \/
  exists d,
    PDict [("id", PInt 3)] = PDict d /\
    truthy (Dict.get "error" PNone d) = true /\
    is_dict (Dict.get "error" PNone d) = false /\
    ProtocolError [ArgVal (PStr "Response without a result field")] =
      AttributeError
        ("'" ++ type_name (Dict.get "error" PNone d)
             ++ "' object has no attribute 'get'").
Proof.
  apply (parse_result_raises (PDict [("id", PInt 3)])). reflexivity.
Defined.

(** ** The outcomes of [send_request] *)

Section Outcomes.

Variable dumps : pyval -> foreign_exn + string.
Variable entropy : nat -> Z.
Variable transport : list event -> string -> post_outcome.

Local Abbreviation serialize := (Server.serialize dumps entropy).
Local Abbreviation send_request := (Server.send_request dumps entropy transport).

Ltac run_to_post Hser Hpost :=
  unfold Server.send_request, bind; rewrite Hser;
  unfold try_except, Server.post, log; cbn [trace rng_pos held];
  rewrite Hpost;
  unfold try_finally, Server.release, Server.read_json, raise, ret, lift,
    bind, try_except, log.

(** X4: when the POST itself raises, no response exists and nothing is
    released; a [ClientResponseError] or [ClientOSError] comes back wrapped in
    a [TransportError] that names the method, any other exception comes back
    as it is. *)
Theorem post_failure (method_name : string) (flag params : pyval)
  (w : world) (body : string) (w1 : world) (e : foreign_exn) :
  serialize method_name params flag w = (Ok body, w1) ->
  transport (trace w1) body = PostRaises e ->
  send_request method_name flag params w =
    (Raise
       (if caught_at_post e then
          TransportError
            [ArgFormat "Error calling method %r" [PStr method_name]; ArgCause e]
        else Foreign e),
     MkWorld (rng_pos w1) (held w1) (trace w1 ++ [EvPost body])).
Proof.
  intros Hser Hpost. run_to_post Hser Hpost.
  unfold caught_at_post. destruct e as [[] txt]; reflexivity.
Qed.

(** X5: a response whose status is not 200 is reported as
    [TransportError('HTTP %d %s' % (status, reason))], for a notification as
    for a call, without reading the body, and the response is released. *)
Theorem bad_status (method_name : string) (flag params : pyval)
  (w : world) (body : string) (w1 : world) (r : response) :
  serialize method_name params flag w = (Ok body, w1) ->
  transport (trace w1) body = PostReturns r ->
  status r <> 200 ->
  release_raises r = None ->
  send_request method_name flag params w =
    (Raise (TransportError
              [ArgFormat "HTTP %d %s" [PInt (status r); PStr (reason r)]]),
     MkWorld (rng_pos w1) (held w1) (trace w1 ++ [EvPost body; EvRelease])).
Proof.
  intros Hser Hpost Hst Hrel. run_to_post Hser Hpost.
  apply Z.eqb_neq in Hst. rewrite Hst, Hrel. cbn [negb trace rng_pos held Nat.pred].
  now rewrite <- app_assoc.
Qed.

(** X6: the answer to a call is what [parse_result] makes of the decoded
    body: its value, or the exception it raises. *)
Theorem reply_is_parsed (method_name : string) (flag params : pyval)
  (w : world) (body : string) (w1 : world) (r : response) (v : pyval) :
  serialize method_name params flag w = (Ok body, w1) ->
  transport (trace w1) body = PostReturns r ->
  status r = 200 ->
  truthy flag = false ->
  json r = inr v ->
  release_raises r = None ->
  send_request method_name flag params w =
    (Server.parse_result v,
     MkWorld (rng_pos w1) (held w1)
       (trace w1 ++ [EvPost body; EvJson; EvRelease])).
Proof.
  intros Hser Hpost Hst Hflag Hjson Hrel. run_to_post Hser Hpost.
  rewrite Hst, Hflag, Hjson, Hrel. cbn [Z.eqb Pos.eqb negb].
  destruct (Server.parse_result v); cbn [trace rng_pos held Nat.pred];
    now rewrite <- !app_assoc.
Qed.

(** X7: a notification that gets status 200 returns [None] whatever the body
    of the response holds, an error object included. *)
Theorem notification_ignores_reply (method_name : string) (flag params : pyval)
  (w : world) (body : string) (w1 : world) (r : response) :
  serialize method_name params flag w = (Ok body, w1) ->
  transport (trace w1) body = PostReturns r ->
  status r = 200 ->
  truthy flag = true ->
  release_raises r = None ->
  send_request method_name flag params w =
    (Ok PNone,
     MkWorld (rng_pos w1) (held w1) (trace w1 ++ [EvPost body; EvRelease])).
Proof.
  intros Hser Hpost Hst Hflag Hrel. run_to_post Hser Hpost.
  rewrite Hst, Hflag, Hrel. cbn [Z.eqb Pos.eqb negb trace rng_pos held Nat.pred].
  now rewrite <- app_assoc.
Qed.

(** X8: when [response.json()] raises, a [ValueError] comes back wrapped in
    [TransportError('Cannot deserialize response body', value_error)] and any
    other exception comes back as it is; the response is released. *)
Theorem undecodable_body (method_name : string) (flag params : pyval)
  (w : world) (body : string) (w1 : world) (r : response) (e : foreign_exn) :
  serialize method_name params flag w = (Ok body, w1) ->
  transport (trace w1) body = PostReturns r ->
  status r = 200 ->
  truthy flag = false ->
  json r = inl e ->
  release_raises r = None ->
  send_request method_name flag params w =
    (Raise
       (if caught_at_json e then
          TransportError
            [ArgVal (PStr "Cannot deserialize response body"); ArgCause e]
        else Foreign e),
     MkWorld (rng_pos w1) (held w1)
       (trace w1 ++ [EvPost body; EvJson; EvRelease])).
Proof.
  intros Hser Hpost Hst Hflag Hjson Hrel. run_to_post Hser Hpost.
  rewrite Hst, Hflag, Hjson, Hrel. cbn [Z.eqb Pos.eqb negb].
  unfold caught_at_json.
  destruct e as [[] txt]; cbn [exc_class trace rng_pos held Nat.pred];
    now rewrite <- !app_assoc.
Qed.

(** X9: when [response.release()] raises, that exception is the outcome of
    the call, whatever came before it: a parsed result is lost, and so is the
    error it replaces. *)
Theorem release_failure_wins (method_name : string) (flag params : pyval)
  (w : world) (body : string) (w1 : world) (r : response) (e : foreign_exn) :
  serialize method_name params flag w = (Ok body, w1) ->
  transport (trace w1) body = PostReturns r ->
  release_raises r = Some e ->
  fst (send_request method_name flag params w) = Raise (Foreign e).
Proof.
  intros Hser Hpost Hrel. run_to_post Hser Hpost. rewrite Hrel.
  destruct (negb (status r =? 200)); [reflexivity|].
  destruct (negb (truthy flag)); [|reflexivity].
  destruct (json r) as [[[] txt] | v]; reflexivity.
Qed.

End Outcomes.

(** ** What a call sends *)

Lemma posted_app (t u : list event) :
  posted (t ++ u) = (posted t ++ posted u)%list.
Proof.
  induction t as [|e t IH]; [reflexivity|].
  destruct e; cbn [app posted]; now rewrite IH.
Qed.

Lemma lookup_remove_other (k k' : string) (d : pydict) :
  k' <> k -> Dict.lookup k' (Dict.remove k d) = Dict.lookup k' d.
Proof.
  intros Hne. induction d as [|[x v] d IH]; [reflexivity|].
  cbn [Dict.remove Dict.lookup].
  destruct (String.eqb k x) eqn:Ekx.
  - apply String.eqb_eq in Ekx. subst x.
    apply String.eqb_neq in Hne. now rewrite Hne.
  - cbn [Dict.lookup]. now rewrite IH.
Qed.

(** The parameters after unwrapping are falsy only for no argument at all
    and for an empty mapping as sole argument. *)
Lemma unwrap_falsy (args : list pyval) :
  truthy (Server.unwrap args) = false <-> args = [] \/ args = [PDict []].
Proof.
  destruct args as [|a l]; [split; [now left | reflexivity]|].
  destruct a as [| | | | | | |d], l as [|a2 l];
    cbn [Server.unwrap truthy List.length Nat.eqb negb];
    try (split; [discriminate | intros [H | H]; discriminate H]).
  destruct d as [|x d]; cbn [truthy List.length Nat.eqb negb].
  - split; [now right | reflexivity].
  - split; [discriminate | intros [H | H]; discriminate H].
Qed.

Section Sending.

Variable dumps : pyval -> foreign_exn + string.
Variable entropy : nat -> Z.
Variable transport : list event -> string -> post_outcome.

Local Abbreviation send_request := (Server.send_request dumps entropy transport).
Local Abbreviation request := (Server.request dumps entropy transport).

(** The members of the envelope, in the order they are written. *)
Local Abbreviation members method_name params flag w :=
  ([("jsonrpc", PStr "2.0"); ("method", PStr method_name)]
   ++ (if truthy params then [("params", params)] else [])
   ++ (if truthy flag then [] else [("id", PInt (draw entropy (rng_pos w)))]))%list.

Lemma send_request_sends (method_name : string) (flag params : pyval)
  (w : world) :
  let w' := snd (send_request method_name flag params w) in
  encoded (trace w') =
    (encoded (trace w) ++ [PDict (members method_name params flag w)])%list /\
  posted (trace w') =
    (posted (trace w) ++
     match dumps (PDict (members method_name params flag w)) with
     | inl _ => []
     | inr body => [body]
     end)%list /\
  held w' = held w.
Proof.
  destruct (send_request_events dumps entropy transport method_name flag
              params w) as (tail & Htr & _ & Hheld & Htail).
  cbn zeta in *. rewrite Htr, encoded_app, posted_app. cbn [encoded posted].
  destruct (dumps _) as [e | body].
  - destruct Htail as (-> & _). cbn [encoded posted].
    rewrite !app_nil_r. repeat split; exact Hheld.
  - destruct Htail as (rest & -> & Hrest). cbn [encoded posted].
    replace (encoded rest) with (@nil pyval)
      by (destruct Hrest as [-> | [-> | (_ & ->)]]; reflexivity).
    replace (posted rest) with (@nil string)
      by (destruct Hrest as [-> | [-> | (_ & ->)]]; reflexivity).
    repeat split; exact Hheld.
Qed.

(** X10: every run of [send_request] hands exactly one envelope to the
    encoder and issues at most one POST, nothing being retried: one POST,
    whose body is the encoder's text, when the encoder returns, none when it
    raises.  The envelope has the members ['jsonrpc'] and ['method'], then
    ['params'] when the parameters are truthy, then ['id'] when the call is
    not a notification, in this order. *)
Theorem one_envelope_one_post (method_name : string) (flag params : pyval)
  (w : world) :
  let w' := snd (send_request method_name flag params w) in
  encoded (trace w') =
    (encoded (trace w) ++ [PDict (members method_name params flag w)])%list /\
  posted (trace w') =
    (posted (trace w) ++
     match dumps (PDict (members method_name params flag w)) with
     | inl _ => []
     | inr body => [body]
     end)%list.
Proof.
  destruct (send_request_sends method_name flag params w) as (He & Hp & _).
  split; assumption.
Qed.

(** X14: when the encoder raises on the envelope, [send_request] raises that
    exception as it is, outside both [try] blocks: nothing is posted, and the
    id of a call that wanted an answer has been drawn all the same. *)
Theorem encoder_failure (method_name : string) (flag params : pyval)
  (w : world) (e : foreign_exn) :
  dumps (PDict (members method_name params flag w)) = inl e ->
  send_request method_name flag params w =
    (Raise (Foreign e),
     MkWorld (if truthy flag then rng_pos w else S (rng_pos w)) (held w)
       (trace w ++ [EvDumps (PDict (members method_name params flag w))])).
Proof.
  intros He.
  pose proof (serialize_exact dumps entropy method_name params flag w) as Hser.
  rewrite He in Hser.
  exact (send_request_unencoded dumps entropy transport _ _ _ _ _ _ Hser).
Qed.

(** X11: a call with keyword arguments only sends them as the parameters in
    the order given, without the [_notification] entry, whose value (or
    [False] when there is none) decides whether the call is a notification. *)
Theorem keyword_call (method_name : string) (kwargs : pydict) (w : world) :
  request method_name [] kwargs w =
    send_request method_name (Dict.get "_notification" (PBool false) kwargs)
      (PDict (Dict.remove "_notification" kwargs)) w /\
  Dict.mem "_notification" (Dict.remove "_notification" kwargs) = false /\
  forall k,
    k <> "_notification" ->
    Dict.lookup k (Dict.remove "_notification" kwargs) = Dict.lookup k kwargs.
Proof.
  split; [|split].
  - now rewrite (request_unmixed dumps entropy transport method_name [] kwargs)
      by (left; reflexivity).
  - apply mem_remove.
  - intros k Hk. now apply lookup_remove_other.
Qed.

(** X12: a call whose arguments are not mixed sends an envelope without
    ['params'] exactly when it has no keyword argument besides the flag and
    either no positional argument or an empty mapping as the only one; an
    empty list or [None] as sole argument is sent. *)
Theorem params_omitted_iff_empty (method_name : string) (args : list pyval)
  (kwargs : pydict) (w : world) :
  args = [] \/ Dict.remove "_notification" kwargs = [] ->
  exists data,
    encoded (trace (snd (request method_name args kwargs w))) =
      (encoded (trace w) ++ [PDict data])%list /\
    (Dict.mem "params" data = false <->
     (args = [] \/ args = [PDict []]) /\
     Dict.remove "_notification" kwargs = []).
Proof.
  intros Hun.
  rewrite (request_unmixed dumps entropy transport method_name args kwargs Hun).
  set (flag := Dict.get "_notification" (PBool false) kwargs).
  set (rest := Dict.remove "_notification" kwargs) in *.
  set (p := if truthy (Server.unwrap args) then Server.unwrap args else PDict rest).
  destruct (send_request_sends method_name flag p w) as (He & _).
  eexists. split; [exact He|].
  assert (Hmem : Dict.mem "params" (members method_name p flag w) = truthy p).
  { destruct (truthy p), (truthy flag); reflexivity. }
  rewrite Hmem. subst p.
  destruct (truthy (Server.unwrap args)) eqn:Hu.
  - rewrite Hu. split; [discriminate|].
    intros (Ha & _). apply unwrap_falsy in Ha. congruence.
  - apply unwrap_falsy in Hu.
    destruct rest; cbn [truthy List.length Nat.eqb negb]; split.
    + intros _. split; [exact Hu | reflexivity].
    + reflexivity.
    + discriminate.
    + intros (_ & H). discriminate H.
Qed.

End Sending.

(** ** Calls through the proxy *)

Lemma parse_result_well_formed (v : pyval) :
  (forall d,
     v = PDict d ->
     truthy (Dict.get "error" PNone d) = true ->
     is_dict (Dict.get "error" PNone d) = true) ->
  match Server.parse_result v with
  | Ok _ => True
  | Raise e => is_JSONRPCError e = true
  end.
Proof.
  intros Hwf. destruct v as [| | | | | | |d]; try reflexivity.
  specialize (Hwf d eq_refl).
  unfold Server.parse_result, Server.py_get. cbv zeta.
  destruct (truthy (Dict.get "error" PNone d)).
  - specialize (Hwf eq_refl).
    destruct (Dict.get "error" PNone d); try discriminate Hwf. reflexivity.
  - destruct (Dict.lookup "result" d); [exact I | reflexivity].
Qed.

Section Calls.

Variable builtin : string -> bool.
Variable dumps : pyval -> foreign_exn + string.
Variable entropy : nat -> Z.
Variable transport : list event -> string -> post_outcome.

Local Abbreviation send_request := (Server.send_request dumps entropy transport).
Local Abbreviation request := (Server.request dumps entropy transport).
Local Abbreviation attribute_chain :=
  (Caller.attribute_chain builtin dumps entropy transport).
Local Abbreviation invoke := (Caller.invoke builtin dumps entropy transport).
Local Abbreviation session := (Caller.session builtin dumps entropy transport).

Lemma send_request_obliging (method_name : string) (flag params : pyval)
  (w : world) :
  (forall data, exists body, dumps data = inr body) ->
  obliging transport ->
  match fst (send_request method_name flag params w) with
  | Ok _ => True
  | Raise e => is_JSONRPCError e = true
  end.
Proof.
  intros Hd Hob.
  pose proof (serialize_exact dumps entropy method_name params flag w) as Hser.
  destruct (Hd (PDict
                  ([("jsonrpc", PStr "2.0"); ("method", PStr method_name)]
                   ++ (if truthy params then [("params", params)] else [])
                   ++ (if truthy flag then []
                       else [("id", PInt (draw entropy (rng_pos w)))]))%list))
    as (body & Hbody).
  rewrite Hbody in Hser.
  unfold Server.send_request, bind. rewrite Hser.
  unfold try_except, Server.post, log. cbn [trace rng_pos held].
  match goal with
  | |- context [transport ?h ?b] => specialize (Hob h b)
  end.
  destruct (transport _ _) as [e | r].
  - unfold caught_at_post in Hob.
    destruct e as [[] txt]; cbn [exc_class] in Hob; try discriminate Hob;
      reflexivity.
  - destruct Hob as (Hrel & Hjson).
    unfold try_finally, Server.release, Server.read_json, raise, ret, lift,
      bind, try_except, log.
    rewrite Hrel.
    destruct (negb (status r =? 200)); [reflexivity|].
    destruct (negb (truthy flag)); [|exact I].
    destruct (json r) as [e | v].
    + unfold caught_at_json in Hjson.
      destruct e as [[] txt]; cbn [exc_class] in Hjson; try discriminate Hjson.
      reflexivity.
    + pose proof (parse_result_well_formed v Hjson) as Hp.
      destruct (Server.parse_result v); exact Hp.
Qed.

(** X13: when the encoder raises on no envelope, the transport fails only in
    the ways [send_request] handles and its error objects are mappings, every
    failure of a dispatch through [__request] is a [JSONRPCError]: a handler
    for the root class sees them all. *)
Theorem failures_are_JSONRPCErrors (method_name : string) (args : list pyval)
  (kwargs : pydict) (w : world) :
  (forall data, exists body, dumps data = inr body) ->
  obliging transport ->
  match fst (request method_name args kwargs w) with
  | Ok _ => True
  | Raise e => is_JSONRPCError e = true
  end.
Proof.
  intros Hd Hob.
  destruct args as [|a l].
  - rewrite (request_unmixed dumps entropy transport method_name [] kwargs)
      by (left; reflexivity).
    now apply send_request_obliging.
  - destruct (Dict.remove "_notification" kwargs) as [|x d] eqn:Hk.
    + rewrite (request_unmixed dumps entropy transport method_name (a :: l)
                 kwargs) by (right; exact Hk).
      now apply send_request_obliging.
    + rewrite (request_mixed dumps entropy transport method_name (a :: l)
                 kwargs w) by (rewrite ?Hk; discriminate).
      reflexivity.
Qed.


(** What one dispatch adds to the envelopes. *)
Lemma request_sends (method_name : string) (args : list pyval)
  (kwargs : pydict) (w : world) :
  let w' := snd (request method_name args kwargs w) in
  encoded (trace w') = encoded (trace w) \/
  exists d,
    encoded (trace w') = (encoded (trace w) ++ [PDict d])%list /\
    Dict.lookup "method" d = Some (PStr method_name).
Proof.
  cbn zeta.
  assert (Hsend : forall flag params,
            exists d,
              encoded (trace (snd (send_request method_name flag params w))) =
                (encoded (trace w) ++ [PDict d])%list /\
              Dict.lookup "method" d = Some (PStr method_name)).
  { intros flag params.
    destruct (send_request_sends dumps entropy transport method_name flag
                params w) as (He & _).
    destruct (members_entries entropy method_name params flag w)
      as (_ & Hm & _).
    eexists. split; [exact He | exact Hm]. }
  destruct args as [|a l].
  - rewrite (request_unmixed dumps entropy transport _ [] kwargs)
      by (left; reflexivity).
    right. apply Hsend.
  - destruct (Dict.remove "_notification" kwargs) as [|x d] eqn:Hk.
    + rewrite (request_unmixed dumps entropy transport _ (a :: l) kwargs)
        by (right; exact Hk).
      right. apply Hsend.
    + rewrite (request_mixed dumps entropy transport _ (a :: l) kwargs w)
        by (rewrite ?Hk; discriminate).
      now left.
Qed.

(** X16: a call expression whose accesses go through [__getattr__], with the
    bound [__call__] of the proxy as an optional last segment, never sends a
    method name that begins with an underscore: it encodes no envelope, or
    one envelope whose ['method'] is a public name. *)
Theorem dispatched_names_are_public (first : string) (rest : list string)
  (args : list pyval) (kwargs : pydict) (w : world) (r : result pyval)
  (w' : world) :
  invoke first rest args kwargs w = Some (r, w') ->
  encoded (trace w') = encoded (trace w) \/
  exists d name,
    encoded (trace w') = (encoded (trace w) ++ [PDict d])%list /\
    Dict.lookup "method" d = Some (PStr name) /\
    Method.is_private name = false.
Proof.
  intros H.
  apply (invoke_run builtin dumps entropy transport) in H.
  destruct H as [(e & _ & ->) | (name & Hname & Hreq)]; [now left|].
  pose proof (request_sends name args kwargs w) as Hs. cbn zeta in Hs.
  rewrite Hreq in Hs. cbn [snd] in Hs.
  destruct Hs as [Hs | (d & Hs & Hm)]; [now left|].
  right. exists d, name. repeat split; assumption.
Qed.

(** X17: a session of call expressions through the proxies answers every
    call and leaves no response held, whatever the calls and whatever the
    transport does. *)
Theorem session_leaves_nothing_held (calls : list Caller.call) (w : world)
  (rs : list (result pyval)) (w' : world) :
  session calls w = Some (rs, w') ->
  List.length rs = List.length calls /\ held w' = held w.
Proof.
  revert w rs w'. induction calls as [|c calls IH]; intros w rs w' H;
    cbn [Caller.session] in H.
  - injection H as <- <-. split; reflexivity.
  - destruct (invoke (Caller.call_first c) (Caller.call_rest c)
                (Caller.call_args c) (Caller.call_kwargs c) w)
      as [[r w1]|] eqn:Hc; [|discriminate H].
    destruct (session calls w1) as [[rs1 w2]|] eqn:Hs; [|discriminate H].
    injection H as <- <-.
    apply (invoke_ids builtin dumps entropy transport) in Hc.
    apply IH in Hs. destruct Hc as (Hh & _), Hs as (Hl & Hh2).
    cbn [List.length]. split; [now rewrite Hl | now rewrite Hh2].
Qed.

End Calls.

(** ** The connection's headers *)

Lemma lookup_set_same (k : string) (v : pyval) (d : pydict) :
  Dict.lookup k (Dict.set k v d) = Some v.
Proof.
  induction d as [|[x u] d IH]; cbn [Dict.set Dict.lookup].
  - now rewrite String.eqb_refl.
  - destruct (String.eqb k x) eqn:E; cbn [Dict.lookup];
      [now rewrite String.eqb_refl | now rewrite E].
Qed.

Lemma lookup_set_other (k k' : string) (v : pyval) (d : pydict) :
  k' <> k -> Dict.lookup k' (Dict.set k v d) = Dict.lookup k' d.
Proof.
  intros Hne. apply String.eqb_neq in Hne.
  induction d as [|[x u] d IH]; cbn [Dict.set Dict.lookup].
  - now rewrite Hne.
  - destruct (String.eqb k x) eqn:E; cbn [Dict.lookup].
    + apply String.eqb_eq in E. subst x. now rewrite Hne.
    + now rewrite IH.
Qed.

Lemma set_set (k : string) (v v' : pyval) (d : pydict) :
  Dict.set k v (Dict.set k v' d) = Dict.set k v d.
Proof.
  induction d as [|[x u] d IH]; cbn [Dict.set].
  - now rewrite String.eqb_refl.
  - destruct (String.eqb k x) eqn:E; cbn [Dict.set].
    + now rewrite String.eqb_refl.
    + now rewrite E, IH.
Qed.

Lemma set_same (k : string) (v : pyval) (d : pydict) :
  Dict.lookup k d = Some v -> Dict.set k v d = d.
Proof.
  induction d as [|[x u] d IH]; cbn [Dict.set Dict.lookup]; [discriminate|].
  destruct (String.eqb k x) eqn:E.
  - apply String.eqb_eq in E. subst x. intros H. now injection H as ->.
  - intros H. now rewrite (IH H).
Qed.

Lemma default_header_dict (k : string) (default : pyval)
  (post_kwargs h : pydict) :
  Dict.lookup "headers" post_kwargs = Some (PDict h) ->
  Server.default_header k default post_kwargs =
    Ok (Dict.set "headers" (PDict (Dict.set k (Dict.get k default h) h))
          post_kwargs).
Proof.
  intros H. unfold Server.default_header.
  replace (Dict.get "headers" PNone post_kwargs) with (PDict h)
    by (unfold Dict.get; now rewrite H).
  reflexivity.
Qed.

Lemma default_header_not_dict (k : string) (default : pyval)
  (post_kwargs : pydict) (v : pyval) :
  Dict.lookup "headers" post_kwargs = Some v ->
  is_dict v = false ->
  Server.default_header k default post_kwargs =
    Raise (AttributeError
             ("'" ++ type_name v ++ "' object has no attribute 'get'")).
Proof.
  intros H Hd. unfold Server.default_header.
  replace (Dict.get "headers" PNone post_kwargs) with v
    by (unfold Dict.get; now rewrite H).
  destruct v; try reflexivity. discriminate Hd.
Qed.

(** [__init__] on keyword arguments whose headers are a dictionary (or are
    not given): nothing raises, and one assignment of the final headers
    describes the result. *)
Lemma init_kwargs_dict (post_kwargs h0 : pydict) :
  Dict.get "headers" (PDict []) post_kwargs = PDict h0 ->
  Server.init_kwargs post_kwargs =
    Ok (Dict.set "headers"
          (PDict
             (Dict.set "Accept"
                (Dict.get "Accept" (PStr "application/json-rpc") h0)
                (Dict.set "Content-Type"
                   (Dict.get "Content-Type" (PStr "application/json") h0) h0)))
          post_kwargs).
Proof.
  intros H. unfold Server.init_kwargs. rewrite H. cbv zeta.
  rewrite (default_header_dict _ _ _ h0) by apply lookup_set_same.
  rewrite (default_header_dict _ _ _ _ (lookup_set_same _ _ _)).
  rewrite !set_set. do 3 f_equal.
  unfold Dict.get. now rewrite lookup_set_other by discriminate.
Qed.

Lemma init_kwargs_not_dict (post_kwargs : pydict) (v : pyval) :
  Dict.get "headers" (PDict []) post_kwargs = v ->
  is_dict v = false ->
  Server.init_kwargs post_kwargs =
    Raise (AttributeError
             ("'" ++ type_name v ++ "' object has no attribute 'get'")).
Proof.
  intros H Hd. unfold Server.init_kwargs. rewrite H. cbv zeta.
  now rewrite (default_header_not_dict _ _ _ v (lookup_set_same _ _ _) Hd).
Qed.

(** X18: when the caller passes no headers or a dictionary of headers,
    [__init__] succeeds and the connection's headers hold ['Content-Type'] and
    ['Accept']: the caller's value where there is one, ['application/json']
    and ['application/json-rpc'] otherwise. *)
Theorem init_default_headers (post_kwargs h0 : pydict) :
  Dict.get "headers" (PDict []) post_kwargs = PDict h0 ->
  exists kw h,
    Server.init_kwargs post_kwargs = Ok kw /\
    Dict.lookup "headers" kw = Some (PDict h) /\
    Dict.lookup "Content-Type" h =
      Some (Dict.get "Content-Type" (PStr "application/json") h0) /\
    Dict.lookup "Accept" h =
      Some (Dict.get "Accept" (PStr "application/json-rpc") h0).
Proof.
  intros H. rewrite (init_kwargs_dict post_kwargs h0 H).
  eexists. eexists. split; [reflexivity|].
  split; [apply lookup_set_same|]. split.
  - rewrite lookup_set_other by discriminate. apply lookup_set_same.
  - apply lookup_set_same.
Qed.

Lemma init_default_headers_witness :
  exists kw h,
    Server.init_kwargs
      [("timeout", PInt 5); ("headers", PDict [("Accept", PStr "*/*")])] =
      Ok kw /\
    Dict.lookup "headers" kw = Some (PDict h) /\
    Dict.lookup "Content-Type" h =
      Some (Dict.get "Content-Type" (PStr "application/json")
              [("Accept", PStr "*/*")]) /\
    Dict.lookup "Accept" h =
      Some (Dict.get "Accept" (PStr "application/json-rpc")
              [("Accept", PStr "*/*")]).
Proof.
  apply (init_default_headers
           [("timeout", PInt 5); ("headers", PDict [("Accept", PStr "*/*")])]
           [("Accept", PStr "*/*")]).
  reflexivity.
Defined.

(** X19: [__init__] keeps everything else as the caller gave it: the other
    keyword arguments of the POST, and the other headers. *)
Theorem init_keeps_the_rest (post_kwargs kw : pydict) :
  Server.init_kwargs post_kwargs = Ok kw ->
  (forall k, k <> "headers" -> Dict.lookup k kw = Dict.lookup k post_kwargs) /\
  exists h0 h,
    Dict.get "headers" (PDict []) post_kwargs = PDict h0 /\
    Dict.lookup "headers" kw = Some (PDict h) /\
    forall k,
      k <> "Content-Type" -> k <> "Accept" ->
      Dict.lookup k h = Dict.lookup k h0.
Proof.
  intros Hinit.
  destruct (Dict.get "headers" (PDict []) post_kwargs) as [| | | | | | |h0] eqn:Hh;
    try (rewrite (init_kwargs_not_dict post_kwargs _ Hh eq_refl) in Hinit;
         discriminate Hinit).
  rewrite (init_kwargs_dict post_kwargs h0 Hh) in Hinit. injection Hinit as <-.
  split.
  - intros k Hk. now apply lookup_set_other.
  - eexists. eexists. split; [reflexivity|]. split; [apply lookup_set_same|].
    intros k Hc Ha. now rewrite !lookup_set_other.
Qed.

Lemma init_keeps_the_rest_witness :
  (forall k,
     k <> "headers" ->
     Dict.lookup k
       [("timeout", PInt 5);
        ("headers",
         PDict [("X-Token", PStr "t"); ("Content-Type", PStr "application/json");
                ("Accept", PStr "application/json-rpc")])] =
     Dict.lookup k
       [("timeout", PInt 5); ("headers", PDict [("X-Token", PStr "t")])]) /\
  exists h0 h,
    Dict.get "headers" (PDict [])
      [("timeout", PInt 5); ("headers", PDict [("X-Token", PStr "t")])] =
      PDict h0 /\
    Dict.lookup "headers"
      [("timeout", PInt 5);
       ("headers",
        PDict [("X-Token", PStr "t"); ("Content-Type", PStr "application/json");
               ("Accept", PStr "application/json-rpc")])] = Some (PDict h) /\
    forall k,
      k <> "Content-Type" -> k <> "Accept" ->
      Dict.lookup k h = Dict.lookup k h0.
Proof.
  apply (init_keeps_the_rest
           [("timeout", PInt 5); ("headers", PDict [("X-Token", PStr "t")])]).
  reflexivity.
Defined.

(** X20: headers that are given and are not a dictionary ([None], a list of
    pairs, a string) make [__init__] raise the [AttributeError] of the missing
    [.get]; no connection is built. *)
Theorem init_rejects_headers_without_get (url : string)
  (session : option string) (post_kwargs : pydict) (v : pyval) :
  Dict.lookup "headers" post_kwargs = Some v ->
  is_dict v = false ->
  Server.init url session post_kwargs =
    Raise (AttributeError
             ("'" ++ type_name v ++ "' object has no attribute 'get'")).
Proof.
  intros Hl Hd. unfold Server.init.
  rewrite (init_kwargs_not_dict post_kwargs v); [reflexivity | | exact Hd].
  unfold Dict.get. now rewrite Hl.
Qed.

Lemma init_rejects_headers_without_get_witness :
  Server.init "http://localhost:8080/rpc" None [("headers", PNone)] =
    Raise (AttributeError "'NoneType' object has no attribute 'get'").
Proof.
  apply (init_rejects_headers_without_get "http://localhost:8080/rpc" None
           [("headers", PNone)] PNone).
  - reflexivity.
  - reflexivity.
Defined.

(** X21: the keyword arguments [__init__] produces are a fixed point of it:
    building a connection from them again adds and changes nothing. *)
Theorem init_kwargs_idempotent (post_kwargs kw : pydict) :
  Server.init_kwargs post_kwargs = Ok kw ->
  Server.init_kwargs kw = Ok kw.
Proof.
  intros Hinit.
  destruct (Dict.get "headers" (PDict []) post_kwargs) as [| | | | | | |h0] eqn:Hh;
    try (rewrite (init_kwargs_not_dict post_kwargs _ Hh eq_refl) in Hinit;
         discriminate Hinit).
  rewrite (init_kwargs_dict post_kwargs h0 Hh) in Hinit. injection Hinit as <-.
  set (c := Dict.get "Content-Type" (PStr "application/json") h0).
  set (a := Dict.get "Accept" (PStr "application/json-rpc") h0).
  set (h := Dict.set "Accept" a (Dict.set "Content-Type" c h0)).
  rewrite (init_kwargs_dict _ h)
    by (unfold Dict.get; now rewrite lookup_set_same).
  rewrite set_set. do 3 f_equal.
  assert (Hc : Dict.lookup "Content-Type" h = Some c).
  { unfold h. rewrite lookup_set_other by discriminate. apply lookup_set_same. }
  assert (Ha : Dict.lookup "Accept" h = Some a) by apply lookup_set_same.
  unfold Dict.get. rewrite Hc, Ha. rewrite (set_same _ _ _ Hc).
  now rewrite (set_same _ _ _ Ha).
Qed.

Lemma init_kwargs_idempotent_witness :
  Server.init_kwargs
    [("headers",
      PDict [("Content-Type", PStr "application/json");
             ("Accept", PStr "application/json-rpc")])] =
  Ok [("headers",
       PDict [("Content-Type", PStr "application/json");
              ("Accept", PStr "application/json-rpc")])].
Proof.
  apply (init_kwargs_idempotent []). reflexivity.
Defined.

(** X22: on a connection that [__init__] built, every POST gets the request
    body as [data], also when the caller froze a [data] keyword of their own,
    and headers that hold ['Content-Type'] and ['Accept']. *)
Theorem post_arguments_of_connection (url : string) (session : option string)
  (post_kwargs : pydict) (self : Server.t) (body : string) :
  Server.init url session post_kwargs = Ok self ->
  Server.url self = url /\
  Dict.lookup "data" (Server.post_arguments self body) = Some (PStr body) /\
  exists h,
    Dict.lookup "headers" (Server.post_arguments self body) = Some (PDict h) /\
    Dict.mem "Content-Type" h = true /\
    Dict.mem "Accept" h = true.
Proof.
  unfold Server.init. intros Hinit.
  destruct (Dict.get "headers" (PDict []) post_kwargs) as [| | | | | | |h0] eqn:Hh;
    try (rewrite (init_kwargs_not_dict post_kwargs _ Hh eq_refl) in Hinit;
         discriminate Hinit).
  rewrite (init_kwargs_dict post_kwargs h0 Hh) in Hinit. injection Hinit as <-.
  unfold Server.post_arguments. cbn [Server.url Server.post_kwargs].
  split; [reflexivity|]. split; [apply lookup_set_same|].
  eexists. split.
  - rewrite lookup_set_other by discriminate. apply lookup_set_same.
  - unfold Dict.mem. rewrite lookup_set_same.
    rewrite lookup_set_other by discriminate. now rewrite lookup_set_same.
Qed.

Lemma post_arguments_of_connection_witness :
  Server.url
    (Server.Make Server.Created "http://localhost:8080/rpc"
       [("data", PStr "mine");
        ("headers",
         PDict [("Content-Type", PStr "application/json");
                ("Accept", PStr "application/json-rpc")])]) =
    "http://localhost:8080/rpc" /\
  Dict.lookup "data"
    (Server.post_arguments
       (Server.Make Server.Created "http://localhost:8080/rpc"
          [("data", PStr "mine");
           ("headers",
            PDict [("Content-Type", PStr "application/json");
                   ("Accept", PStr "application/json-rpc")])])
       "{}") = Some (PStr "{}") /\
  exists h,
    Dict.lookup "headers"
      (Server.post_arguments
         (Server.Make Server.Created "http://localhost:8080/rpc"
            [("data", PStr "mine");
             ("headers",
              PDict [("Content-Type", PStr "application/json");
                     ("Accept", PStr "application/json-rpc")])])
         "{}") = Some (PDict h) /\
    Dict.mem "Content-Type" h = true /\
    Dict.mem "Accept" h = true.
Proof.
  apply (post_arguments_of_connection "http://localhost:8080/rpc" None
           [("data", PStr "mine")]).
  reflexivity.
Defined.

(** ** The further properties on the sample connection *)

Lemma post_failure_witness :
  Server.send_request Sample.dumps Sample.entropy
    (fun _ _ => PostRaises (MkForeign OtherException "TimeoutError"))
    "ping" (PBool false) (PTuple []) Sample.start =
  (Raise
     (if caught_at_post (MkForeign OtherException "TimeoutError") then
        TransportError
          [ArgFormat "Error calling method %r" [PStr "ping"];
           ArgCause (MkForeign OtherException "TimeoutError")]
      else Foreign (MkForeign OtherException "TimeoutError")),
   MkWorld 1 0
     ([EvDumps (PDict [("jsonrpc", PStr "2.0"); ("method", PStr "ping");
                       ("id", PInt 42)])]
      ++ [EvPost "jsonrpc,method,id"])).
Proof.
  apply (post_failure Sample.dumps Sample.entropy
           (fun _ _ => PostRaises (MkForeign OtherException "TimeoutError"))
           "ping" (PBool false) (PTuple []) Sample.start "jsonrpc,method,id"
           (MkWorld 1 0
              [EvDumps (PDict [("jsonrpc", PStr "2.0"); ("method", PStr "ping");
                               ("id", PInt 42)])])).
  - reflexivity.
  - reflexivity.
Defined.

Lemma bad_status_witness :
  Server.send_request Sample.dumps Sample.entropy Sample.failing
    "ping" (PBool true) (PTuple []) Sample.start =
  (Raise (TransportError
            [ArgFormat "HTTP %d %s" [PInt 500; PStr "Internal Server Error"]]),
   MkWorld 0 0
     ([EvDumps (PDict [("jsonrpc", PStr "2.0"); ("method", PStr "ping")])]
      ++ [EvPost "jsonrpc,method"; EvRelease])).
Proof.
  apply (bad_status Sample.dumps Sample.entropy Sample.failing
           "ping" (PBool true) (PTuple []) Sample.start "jsonrpc,method"
           (MkWorld 0 0
              [EvDumps (PDict [("jsonrpc", PStr "2.0");
                               ("method", PStr "ping")])])
           (MkResponse 500 "Internal Server Error" (inr PNone) None)).
  - reflexivity.
  - reflexivity.
  - discriminate.
  - reflexivity.
Defined.

Lemma reply_is_parsed_witness :
  Server.send_request Sample.dumps Sample.entropy Sample.transport
    "ping" (PBool false) (PTuple []) Sample.start =
  (Server.parse_result (PDict [("result", PInt 7)]),
   MkWorld 1 0
     ([EvDumps (PDict [("jsonrpc", PStr "2.0"); ("method", PStr "ping");
                       ("id", PInt 42)])]
      ++ [EvPost "jsonrpc,method,id"; EvJson; EvRelease])).
Proof.
  apply (reply_is_parsed Sample.dumps Sample.entropy Sample.transport
           "ping" (PBool false) (PTuple []) Sample.start "jsonrpc,method,id"
           (MkWorld 1 0
              [EvDumps (PDict [("jsonrpc", PStr "2.0"); ("method", PStr "ping");
                               ("id", PInt 42)])])
           (MkResponse 200 "OK" (inr (PDict [("result", PInt 7)])) None));
    reflexivity.
Defined.

Lemma notification_ignores_reply_witness :
  Server.send_request Sample.dumps Sample.entropy
    (fun _ _ =>
       PostReturns
         (MkResponse 200 "OK"
            (inr (PDict [("error", PDict [("code", PInt 1)])])) None))
    "ping" (PInt 1) (PTuple []) Sample.start =
  (Ok PNone,
   MkWorld 0 0
     ([EvDumps (PDict [("jsonrpc", PStr "2.0"); ("method", PStr "ping")])]
      ++ [EvPost "jsonrpc,method"; EvRelease])).
Proof.
  apply (notification_ignores_reply Sample.dumps Sample.entropy
           (fun _ _ =>
              PostReturns
                (MkResponse 200 "OK"
                   (inr (PDict [("error", PDict [("code", PInt 1)])])) None))
           "ping" (PInt 1) (PTuple []) Sample.start "jsonrpc,method"
           (MkWorld 0 0
              [EvDumps (PDict [("jsonrpc", PStr "2.0");
                               ("method", PStr "ping")])])
           (MkResponse 200 "OK"
              (inr (PDict [("error", PDict [("code", PInt 1)])])) None));
    reflexivity.
Defined.

Lemma undecodable_body_witness :
  Server.send_request Sample.dumps Sample.entropy
    (fun _ _ =>
       PostReturns
         (MkResponse 200 "OK"
            (inl (MkForeign ClientResponseError "unexpected mimetype")) None))
    "ping" (PBool false) (PTuple []) Sample.start =
  (Raise
     (if caught_at_json (MkForeign ClientResponseError "unexpected mimetype")
      then
        TransportError
          [ArgVal (PStr "Cannot deserialize response body");
           ArgCause (MkForeign ClientResponseError "unexpected mimetype")]
      else Foreign (MkForeign ClientResponseError "unexpected mimetype")),
   MkWorld 1 0
     ([EvDumps (PDict [("jsonrpc", PStr "2.0"); ("method", PStr "ping");
                       ("id", PInt 42)])]
      ++ [EvPost "jsonrpc,method,id"; EvJson; EvRelease])).
Proof.
  apply (undecodable_body Sample.dumps Sample.entropy
           (fun _ _ =>
              PostReturns
                (MkResponse 200 "OK"
                   (inl (MkForeign ClientResponseError "unexpected mimetype"))
                   None))
           "ping" (PBool false) (PTuple []) Sample.start "jsonrpc,method,id"
           (MkWorld 1 0
              [EvDumps (PDict [("jsonrpc", PStr "2.0"); ("method", PStr "ping");
                               ("id", PInt 42)])])
           (MkResponse 200 "OK"
              (inl (MkForeign ClientResponseError "unexpected mimetype")) None));
    reflexivity.
Defined.

Lemma release_failure_wins_witness :
  fst (Server.send_request Sample.dumps Sample.entropy
         (fun _ _ =>
            PostReturns
              (MkResponse 200 "OK" (inr (PDict [("result", PInt 7)]))
                 (Some (MkForeign OtherException "ClientPayloadError"))))
         "ping" (PBool false) (PTuple []) Sample.start) =
  Raise (Foreign (MkForeign OtherException "ClientPayloadError")).
Proof.
  apply (release_failure_wins Sample.dumps Sample.entropy
           (fun _ _ =>
              PostReturns
                (MkResponse 200 "OK" (inr (PDict [("result", PInt 7)]))
                   (Some (MkForeign OtherException "ClientPayloadError"))))
           "ping" (PBool false) (PTuple []) Sample.start "jsonrpc,method,id"
           (MkWorld 1 0
              [EvDumps (PDict [("jsonrpc", PStr "2.0"); ("method", PStr "ping");
                               ("id", PInt 42)])])
           (MkResponse 200 "OK" (inr (PDict [("result", PInt 7)]))
              (Some (MkForeign OtherException "ClientPayloadError"))));
    reflexivity.
Defined.

Lemma params_omitted_iff_empty_witness :
  exists data,
    encoded
      (trace
         (snd (Server.request Sample.dumps Sample.entropy Sample.transport
                 "ping" [PList []] [] Sample.start))) =
      (encoded (trace Sample.start) ++ [PDict data])%list /\
    (Dict.mem "params" data = false <->
     ([PList []] = [] \/ [PList []] = [PDict []]) /\
     Dict.remove "_notification" [] = []).
Proof.
  apply (params_omitted_iff_empty Sample.dumps Sample.entropy Sample.transport
           "ping" [PList []] [] Sample.start).
  right. reflexivity.
Defined.

Lemma sample_transport_obliging : obliging Sample.transport.
Proof.
  intros history body. cbn. split; [reflexivity|].
  intros d Hd. injection Hd as <-. discriminate.
Defined.

Lemma sample_dumps_returns :
  forall data, exists body, Sample.dumps data = inr body.
Proof. intros data. destruct data; eexists; reflexivity. Defined.

Lemma failures_are_JSONRPCErrors_witness :
  match
    fst (Server.request Sample.dumps Sample.entropy Sample.transport
           "ping" [PInt 1] [("x", PInt 2)] Sample.start)
  with
  | Ok _ => True
  | Raise e => is_JSONRPCError e = true
  end.
Proof.
  apply (failures_are_JSONRPCErrors Sample.dumps Sample.entropy
           Sample.transport "ping" [PInt 1] [("x", PInt 2)] Sample.start).
  - exact sample_dumps_returns.
  - exact sample_transport_obliging.
Defined.

Lemma encoder_failure_witness :
  Server.send_request Sample.refusing Sample.entropy Sample.transport
    "ping" (PBool false) (PTuple [PInt 1]) Sample.start =
  (Raise (Foreign (MkForeign OtherException "TypeError: not JSON serializable")),
   MkWorld (if truthy (PBool false) then rng_pos Sample.start
            else S (rng_pos Sample.start))
     (held Sample.start)
     (trace Sample.start
      ++ [EvDumps
            (PDict
               ([("jsonrpc", PStr "2.0"); ("method", PStr "ping")]
                ++ (if truthy (PTuple [PInt 1])
                    then [("params", PTuple [PInt 1])] else [])
                ++ (if truthy (PBool false) then []
                    else [("id",
                           PInt (draw Sample.entropy (rng_pos Sample.start)))]))%list)])).
Proof.
  apply (encoder_failure Sample.refusing Sample.entropy Sample.transport
           "ping" (PBool false) (PTuple [PInt 1]) Sample.start).
  reflexivity.
Defined.

Lemma dispatched_names_are_public_witness :
  exists r w',
    Caller.invoke Sample.builtin Sample.dumps Sample.entropy Sample.transport
      "math" ["add"; "__call__"] [PInt 1] [] Sample.start = Some (r, w') /\
    (encoded (trace w') = encoded (trace Sample.start) \/
     exists d name,
       encoded (trace w') = (encoded (trace Sample.start) ++ [PDict d])%list /\
       Dict.lookup "method" d = Some (PStr name) /\
       Method.is_private name = false).
Proof.
  eexists. eexists. split; [lazy; reflexivity|].
  eapply (dispatched_names_are_public Sample.builtin Sample.dumps
            Sample.entropy Sample.transport "math" ["add"; "__call__"]
            [PInt 1] [] Sample.start).
  lazy; reflexivity.
Defined.

Lemma session_leaves_nothing_held_witness :
  exists rs w',
    Caller.session Sample.builtin Sample.dumps Sample.entropy Sample.failing
      [Caller.MkCall "ping" [] [] [];
       Caller.MkCall "_hidden" [] [] [];
       Caller.MkCall "log" [] [PStr "up"] [("_notification", PBool true)]]
      Sample.start = Some (rs, w') /\
    List.length rs =
      List.length
        [Caller.MkCall "ping" [] [] [];
         Caller.MkCall "_hidden" [] [] [];
         Caller.MkCall "log" [] [PStr "up"] [("_notification", PBool true)]] /\
    held w' = held Sample.start.
Proof.
  eexists. eexists. split; [reflexivity|].
  eapply (session_leaves_nothing_held Sample.builtin Sample.dumps
            Sample.entropy Sample.failing).
  reflexivity.
Defined.
